(** * eightsleep-nosub-app: the temperature profile form

    A shallow embedding of [src/components/temperatureProfileForm.tsx]:
    the zod schema of the form, the effect that derives the sleep duration
    and the two stage times from the bed and wake-up fields, the scaling of
    the sleep levels between the stored profile and the form, and the
    submit and delete handlers.

    Conventions of the model.
    - A JavaScript number that may be fractional (the sleep levels) is an
      IEEE 754 binary64 value, [spec_float] at precision 53.
    - A [Date] is its time value in milliseconds, [None] for an Invalid
      Date.  All the time values that occur are whole numbers far below
      2^53, on which binary64 arithmetic is exact, so they are kept in [Z].
    - React state is a record; a handler is a function from the state it
      closes over to the list of outside calls it makes, a state setter is
      a record update. *)

From Stdlib Require Import ZArith Lia Bool List String Ascii.
From Stdlib Require Import SpecFloat DecimalString.
Import ListNotations.

Local Open Scope string_scope.
Local Open Scope Z_scope.

(** ** Finite ranges of integers, for checking a property on every value *)

Definition zrange (lo : Z) (n : nat) : list Z :=
  map (fun i => lo + Z.of_nat i) (seq 0 n).

(** ** JavaScript numbers *)

Module JSNumber.

Definition number : Type := spec_float.

Definition prec : Z := 53.
Definition emax : Z := 1024.

(** The number denoted by an integer literal. *)
Definition ofZ (z : Z) : number := binary_normalize prec emax z 0 false.

Definition NaN : number := S754_nan.

(** [x * y] and [x / y]. *)
Definition mul (x y : number) : number := SFmul prec emax x y.
Definition div (x y : number) : number := SFdiv prec emax x y.
Definition sub (x y : number) : number := SFsub prec emax x y.
Definition add (x y : number) : number := SFadd prec emax x y.

(** [x <= y], [x < y] and [x == y]; all false when an operand is NaN. *)
Definition leb (x y : number) : bool := SFleb x y.
Definition ltb (x y : number) : bool := SFltb x y.
Definition eqb (x y : number) : bool := SFeqb x y.

Definition isNaN (x : number) : bool :=
  match x with S754_nan => true | _ => false end.

(** [Math.round(x)]: x itself when it is not finite or already integral;
    otherwise the nearest integer, the one towards +infinity on a tie,
    keeping the sign of x on a zero result. *)
Definition Math_round (x : number) : number :=
  match x with
  | S754_finite s m e =>
      if 0 <=? e then x
      else
        let d := Z.pow 2 (- e) in
        let v := cond_Zopp s (Zpos m) in
        let n := (2 * v + d) / (2 * d) in
        binary_normalize prec emax n 0 s
  | _ => x
  end.

(** [Math.max(x, y)] and [Math.min(x, y)] on numbers that are not NaN
    (NaN if either is). *)
Definition Math_max (x y : number) : number :=
  if isNaN x || isNaN y then NaN else if ltb x y then y else x.
Definition Math_min (x y : number) : number :=
  if isNaN x || isNaN y then NaN else if ltb y x then y else x.

(** The exact value of a finite number as a fraction [(numerator,
    denominator)], the denominator a power of two. *)
Definition exact (x : number) : option (Z * Z) :=
  match x with
  | S754_zero _ => Some (0, 1)
  | S754_finite s m e =>
      if 0 <=? e then Some (cond_Zopp s (Zpos m) * 2 ^ e, 1)
      else Some (cond_Zopp s (Zpos m), 2 ^ (- e))
  | _ => None
  end.

(** [exact x] is the fraction [p/q]. *)
Definition denotes (x : number) (p q : Z) : Prop :=
  match exact x with
  | Some (a, b) => a * q = p * b /\ 0 < q
  | None => False
  end.

(** [Object.is(x, y)] on numbers: the same value, with +0 and -0 apart. *)
Definition sameValue (x y : number) : bool :=
  match x, y with
  | S754_zero a, S754_zero b => Bool.eqb a b
  | S754_infinity a, S754_infinity b => Bool.eqb a b
  | S754_nan, S754_nan => true
  | S754_finite s m e, S754_finite s' m' e' =>
      Bool.eqb s s' && Pos.eqb m m' && Z.eqb e e'
  | _, _ => false
  end.

End JSNumber.

Import JSNumber.

(** ** The sleep-level scaling

    [setValue("initialSleepLevel", profile.initialSleepLevel / 10)] on load,
    [Math.round(data.initialSleepLevel * 10)] on submit. *)

Definition decode (stored : number) : number := div stored (ofZ 10).

Definition encode (level : number) : number := Math_round (mul level (ofZ 10)).


(** ** Strings *)

Definition isDigit (c : ascii) : bool :=
  let n := Z.of_N (N_of_ascii c) in (48 <=? n) && (n <=? 57).

Definition digitValue (c : ascii) : Z := Z.of_N (N_of_ascii c) - 48.

Definition digitChar (d : Z) : ascii := ascii_of_N (Z.to_N (48 + d)).

(** A number in 0..99 on two decimal digits. *)
Definition pad2 (n : Z) : string :=
  String (digitChar (n / 10)) (String (digitChar (n mod 10)) EmptyString).

(** A string used as a condition is true when it is not empty. *)
Definition truthy (s : string) : bool :=
  match s with EmptyString => false | String _ _ => true end.

(** [s.slice(0, 5)] *)
Definition slice_0_5 (s : string) : string := substring 0 5 s.

(** A template literal's rendering of an integral number or NaN. *)
Definition numberToString (n : option Z) : string :=
  match n with
  | Some z => NilZero.string_of_int (Z.to_int z)
  | None => "NaN"
  end.

(** ** Regular expressions of the shape [/^ a1 a2 ... an $/]

    Each atom consumes one character; with both anchors and no flags the
    pattern matches a string exactly when the string has one character per
    atom. *)

Module Regex.

Inductive atom : Type :=
| Digit              (* \d *)
| Lit (c : ascii).   (* a literal character *)

Definition atom_test (a : atom) (c : ascii) : bool :=
  match a with
  | Digit => isDigit c
  | Lit l => Ascii.eqb l c
  end.

Fixpoint test (re : list atom) (s : string) : bool :=
  match re, s with
  | [], EmptyString => true
  | a :: re', String c s' => atom_test a c && test re' s'
  | _, _ => false
  end.

(** [x{n}] *)
Definition times (n : nat) (a : atom) : list atom := repeat a n.

End Regex.

(** [/^\d{2}:\d{2}$/] *)
Definition HHMM_regex : list Regex.atom :=
  Regex.times 2 Regex.Digit ++ [Regex.Lit ":"] ++ Regex.times 2 Regex.Digit.

(** ** The form and its schema *)

(** The object of the time zone field.  The schema names [value],
    [altName] and [abbrev]; [label] and [offset] are the further keys of
    the options the time zone widget hands to [onChange].  An absent key
    is [None]. *)
Record Timezone : Type := {
  value : string;
  altName : option string;
  abbrev : option string;
  label : option string;
  offset : option number;
}.

Record TemperatureProfileForm : Type := {
  bedTime : string;
  wakeupTime : string;
  initialSleepLevel : number;
  midStageSleepLevel : number;
  finalSleepLevel : number;
  timezone : Timezone;
}.

Inductive field : Type :=
| f_bedTime | f_wakeupTime
| f_initialSleepLevel | f_midStageSleepLevel | f_finalSleepLevel.

Inductive issue : Type :=
| invalid_string (message : string)   (* a failed [.regex(re, message)] *)
| invalid_type                        (* [z.number()] on NaN *)
| too_small                           (* a failed [.min(-10)] *)
| too_big.                            (* a failed [.max(10)] *)

(** [z.string().regex(/^\d{2}:\d{2}$/, "Must be in HH:MM format")] *)
Definition timeSchema (s : string) : list issue :=
  if Regex.test HHMM_regex s then []
  else [invalid_string "Must be in HH:MM format"].

(** [z.number().min(-10).max(10)] *)
Definition levelSchema (x : number) : list issue :=
  if isNaN x then [invalid_type]
  else (if ltb x (ofZ (-10)) then [too_small] else [])
       ++ (if ltb (ofZ 10) x then [too_big] else []).

Definition at_field (f : field) (l : list issue) : list (field * issue) :=
  map (pair f) l.

Definition temperatureProfileSchema (v : TemperatureProfileForm)
  : list (field * issue) :=
  at_field f_bedTime (timeSchema (bedTime v))
  ++ at_field f_wakeupTime (timeSchema (wakeupTime v))
  ++ at_field f_initialSleepLevel (levelSchema (initialSleepLevel v))
  ++ at_field f_midStageSleepLevel (levelSchema (midStageSleepLevel v))
  ++ at_field f_finalSleepLevel (levelSchema (finalSleepLevel v)).

(** The values given to [useForm] as [defaultValues]. *)
Definition defaultValues : TemperatureProfileForm := {|
  bedTime := "22:00";
  wakeupTime := "06:00";
  initialSleepLevel := ofZ 0;
  midStageSleepLevel := ofZ 0;
  finalSleepLevel := ofZ 0;
  timezone := {| value := "America/New_York"; altName := None; abbrev := None;
                 label := None; offset := None |};
|}.

(** The hour and the minute a string of the [HH:MM] shape spells. *)
Definition hourOf (s : string) : Z :=
  match s with
  | String a (String b _) => 10 * digitValue a + digitValue b
  | _ => 0
  end.

Definition minuteOf (s : string) : Z :=
  match s with
  | String _ (String _ (String _ (String c (String d _)))) =>
      10 * digitValue c + digitValue d
  | _ => 0
  end.

(** ** Dates

    The effect builds every [Date] from the template
    [`2000-01-01T${time}:00`] and only moves it by a day or by whole
    hours.  A template without a UTC offset is a local time, so its time
    value is counted from the time value of local midnight of that day; the
    local UTC offset is taken to be the same on 2000-01-01, -02 and -03, so
    that a calendar day lasts 86400000 ms. *)

(** The time value of 2000-01-01T00:00:00Z. *)
Definition utc_2000_01_01 : Z := 946684800000.

(** Two decimal digits. *)
Definition twoDigits (a b : ascii) : option Z :=
  if isDigit a && isDigit b then Some (10 * digitValue a + digitValue b)
  else None.

(** The milliseconds of the day of [HH:mm:ss.sss]: hours 00..23, minutes
    and seconds 00..59, or 24:00:00.000 for the end of the day. *)
Definition clockMs (h m sec ms : Z) : option Z :=
  if ((h <=? 23) && (m <=? 59) && (sec <=? 59))
     || ((h =? 24) && (m =? 0) && (sec =? 0) && (ms =? 0))
  then Some (((h * 60 + m) * 60 + sec) * 1000 + ms)
  else None.

(** The end of a date-time string: nothing (a local time), [Z], or
    [+HH:mm] / [-HH:mm]; the offset in ms. *)
Definition parseOffset (s : string) : option (option Z) :=
  match s with
  | EmptyString => Some None
  | String z EmptyString =>
      if Ascii.eqb z "Z" then Some (Some 0) else None
  | String sg (String a (String b (String c (String d (String e EmptyString))))) =>
      if (Ascii.eqb sg "+" || Ascii.eqb sg "-") && Ascii.eqb c ":" then
        match twoDigits a b, twoDigits d e with
        | Some oh, Some om =>
            if (oh <=? 23) && (om <=? 59) then
              Some (Some ((if Ascii.eqb sg "-" then -1 else 1)
                          * ((oh * 60 + om) * 60 * 1000)))
            else None
        | _, _ => None
        end
      else None
  | _ => None
  end.

(** What may follow [HH:mm]: [:ss], then [.sss], then the offset; the
    seconds, the milliseconds and the offset. *)
Definition parseSeconds (s : string) : option (Z * Z * option Z) :=
  match s with
  | String c (String a (String b rest)) =>
      if Ascii.eqb c ":" then
        match twoDigits a b with
        | Some sec =>
            match rest with
            | String p (String f1 (String f2 (String f3 rest'))) =>
                if Ascii.eqb p "." then
                  if isDigit f1 && isDigit f2 && isDigit f3 then
                    option_map
                      (fun off =>
                         (sec,
                          100 * digitValue f1 + 10 * digitValue f2
                          + digitValue f3, off))
                      (parseOffset rest')
                  else None
                else option_map (fun off => (sec, 0, off)) (parseOffset rest)
            | _ => option_map (fun off => (sec, 0, off)) (parseOffset rest)
            end
        | None => None
        end
      else option_map (fun off => (0, 0, off)) (parseOffset s)
  | _ => option_map (fun off => (0, 0, off)) (parseOffset s)
  end.

(** The part of an ECMAScript date-time string after the [T]:
    [HH:mm], [HH:mm:ss] or [HH:mm:ss.sss], then the offset; the
    milliseconds of the day and the offset. *)
Definition parseTime (s : string) : option (Z * option Z) :=
  match s with
  | String h1 (String h2 (String c (String m1 (String m2 rest)))) =>
      if Ascii.eqb c ":" then
        match twoDigits h1 h2, twoDigits m1 m2, parseSeconds rest with
        | Some h, Some m, Some (sec, ms, off) =>
            option_map (fun t => (t, off)) (clockMs h m sec ms)
        | _, _, _ => None
        end
      else None
  | _ => None
  end.

Definition Date : Type := option Z.

Definition msPerDay : Z := 24 * 60 * 60 * 1000.

Section LocalTime.

(** The time value of 2000-01-01T00:00:00 local time. *)
Variable midnight : Z.
(** What [toTimeString] prints after [HH:MM:SS]: the offset and the name
    of the zone. *)
Variable zoneSuffix : string.

(** [new Date(`2000-01-01T${time}:00`)].  A string in the ECMAScript
    date-time format is a local time when it has no offset and is counted
    from 2000-01-01T00:00:00Z when it has one; a string in the format with
    a field out of its range is an Invalid Date.  So "22:00" is 22:00
    local, "22" is 22:00 local as well, "25:00" is invalid.  For a string
    outside the format the language leaves the result to the
    implementation; the model takes the Invalid Date there. *)
Definition newDate_2000_01_01T (time : string) : Date :=
  match parseTime (time ++ ":00") with
  | Some (t, None) => Some (midnight + t)
  | Some (t, Some off) => Some (utc_2000_01_01 + t - off)
  | None => None
  end.

(** [d.getTime()], NaN for an Invalid Date. *)
Definition getTime (d : Date) : option Z := d.

(** [new Date(ms)] *)
Definition newDate_ms (ms : option Z) : Date := ms.

(** [a <= b] on dates compares the time values; false if either is NaN. *)
Definition Date_leb (a b : Date) : bool :=
  match getTime a, getTime b with
  | Some x, Some y => x <=? y
  | _, _ => false
  end.

(** [d.setDate(d.getDate() + 1)] *)
Definition setDate_next (d : Date) : Date :=
  match d with
  | Some t => Some (t + msPerDay)
  | None => None
  end.

(** [d.toTimeString()] *)
Definition toTimeString (d : Date) : string :=
  match d with
  | Some t =>
      let s := ((t - midnight) / 1000) mod 86400 in
      pad2 (s / 3600) ++ ":" ++ pad2 ((s / 60) mod 60) ++ ":"
        ++ pad2 (s mod 60) ++ zoneSuffix
  | None => "Invalid Date"
  end.

(** *** The duration effect, expression by expression *)

Definition bedDate (bedTime : string) : Date := newDate_2000_01_01T bedTime.

(** [wakeDate <= bedDate], the test that moves the wake-up to the next
    day. *)
Definition wakeIsNextDay (bedTime wakeupTime : string) : bool :=
  Date_leb (newDate_2000_01_01T wakeupTime) (bedDate bedTime).

(** [wakeDate] after the test. *)
Definition wakeDate (bedTime wakeupTime : string) : Date :=
  if wakeIsNextDay bedTime wakeupTime
  then setDate_next (newDate_2000_01_01T wakeupTime)
  else newDate_2000_01_01T wakeupTime.

Definition durationMs (bedTime wakeupTime : string) : option Z :=
  match getTime (wakeDate bedTime wakeupTime), getTime (bedDate bedTime) with
  | Some w, Some b => Some (w - b)
  | _, _ => None
  end.

(** [Math.floor(durationMs / (1000 * 60 * 60))] *)
Definition hours (bedTime wakeupTime : string) : option Z :=
  match durationMs bedTime wakeupTime with
  | Some d => Some (d / (1000 * 60 * 60))
  | None => None
  end.

(** [Math.round((durationMs % (1000 * 60 * 60)) / (1000 * 60))]: the
    remainder has the sign of [durationMs]; the quotient [r / q] rounds
    to [floor ((2 r + q) / (2 q))], half-way cases upwards. *)
Definition minutes (bedTime wakeupTime : string) : option Z :=
  match durationMs bedTime wakeupTime with
  | Some d =>
      let r := Z.rem d (1000 * 60 * 60) in
      let q := 1000 * 60 in
      Some ((2 * r + q) / (2 * q))
  | None => None
  end.

(** The duration in whole minutes (what the specification calls
    durationMinutes; the code keeps milliseconds). *)
Definition durationMinutes (bedTime wakeupTime : string) : option Z :=
  match durationMs bedTime wakeupTime with
  | Some d => Some (d / (1000 * 60))
  | None => None
  end.

(** [hours < 4]; false when [hours] is NaN. *)
Definition tooShort (bedTime wakeupTime : string) : bool :=
  match hours bedTime wakeupTime with
  | Some h => h <? 4
  | None => false
  end.

Definition midStageDate (bedTime : string) : Date :=
  newDate_ms (match getTime (bedDate bedTime) with
              | Some b => Some (b + 60 * 60 * 1000)
              | None => None
              end).

Definition finalStageDate (bedTime wakeupTime : string) : Date :=
  newDate_ms (match getTime (wakeDate bedTime wakeupTime) with
              | Some w => Some (w - 2 * 60 * 60 * 1000)
              | None => None
              end).

End LocalTime.

(** ** The component *)

Record SleepInfo : Type := {
  duration : string;
  midStageTime : string;
  finalStageTime : string;
}.

(** The [useState] cells, the form values held by [useForm] with its
    [isDirty] flag, and the [isPending] flag of the update mutation. *)
Record State : Type := {
  isLoading : bool;
  isExistingProfile : bool;
  sleepDurationError : option string;
  sleepInfo : SleepInfo;
  form : TemperatureProfileForm;
  isDirty : bool;
  updateIsPending : bool;
}.

Definition setIsLoading (b : bool) (st : State) : State :=
  {| isLoading := b; isExistingProfile := isExistingProfile st;
     sleepDurationError := sleepDurationError st; sleepInfo := sleepInfo st;
     form := form st; isDirty := isDirty st;
     updateIsPending := updateIsPending st |}.

Definition setIsExistingProfile (b : bool) (st : State) : State :=
  {| isLoading := isLoading st; isExistingProfile := b;
     sleepDurationError := sleepDurationError st; sleepInfo := sleepInfo st;
     form := form st; isDirty := isDirty st;
     updateIsPending := updateIsPending st |}.

Definition setSleepDurationError (e : option string) (st : State) : State :=
  {| isLoading := isLoading st; isExistingProfile := isExistingProfile st;
     sleepDurationError := e; sleepInfo := sleepInfo st;
     form := form st; isDirty := isDirty st;
     updateIsPending := updateIsPending st |}.

Definition setSleepInfo (i : SleepInfo) (st : State) : State :=
  {| isLoading := isLoading st; isExistingProfile := isExistingProfile st;
     sleepDurationError := sleepDurationError st; sleepInfo := i;
     form := form st; isDirty := isDirty st;
     updateIsPending := updateIsPending st |}.

(** Writing the form values; [dirty] is the [isDirty] flag afterwards. *)
Definition withForm (v : TemperatureProfileForm) (dirty : bool) (st : State)
  : State :=
  {| isLoading := isLoading st; isExistingProfile := isExistingProfile st;
     sleepDurationError := sleepDurationError st; sleepInfo := sleepInfo st;
     form := v; isDirty := dirty;
     updateIsPending := updateIsPending st |}.

Definition setUpdateIsPending (b : bool) (st : State) : State :=
  {| isLoading := isLoading st; isExistingProfile := isExistingProfile st;
     sleepDurationError := sleepDurationError st; sleepInfo := sleepInfo st;
     form := form st; isDirty := isDirty st;
     updateIsPending := b |}.

(** [deepEqual] of react-hook-form on two values of the form: the same
    keys, strings and numbers compared with [===]. *)
Definition optionEqual {A : Type} (eq : A -> A -> bool) (x y : option A)
  : bool :=
  match x, y with
  | Some a, Some b => eq a b
  | None, None => true
  | _, _ => false
  end.

Definition deepEqualTimezone (a b : Timezone) : bool :=
  String.eqb (value a) (value b)
  && optionEqual String.eqb (altName a) (altName b)
  && optionEqual String.eqb (abbrev a) (abbrev b)
  && optionEqual String.eqb (label a) (label b)
  && optionEqual JSNumber.eqb (offset a) (offset b).

Definition deepEqual (a b : TemperatureProfileForm) : bool :=
  String.eqb (bedTime a) (bedTime b)
  && String.eqb (wakeupTime a) (wakeupTime b)
  && JSNumber.eqb (initialSleepLevel a) (initialSleepLevel b)
  && JSNumber.eqb (midStageSleepLevel a) (midStageSleepLevel b)
  && JSNumber.eqb (finalSleepLevel a) (finalSleepLevel b)
  && deepEqualTimezone (timezone a) (timezone b).

(** A change of a field through its input or its controller: the form is
    dirty afterwards exactly when its values differ from [defaultValues].
    ([setValue], which the load effect uses, leaves the flag as it is.) *)
Definition fieldChange (v : TemperatureProfileForm) (st : State) : State :=
  withForm v (negb (deepEqual v defaultValues)) st.

(** [reset()] of react-hook-form with no argument: the values go back to
    [defaultValues] and the form is no longer dirty. *)
Definition reset (st : State) : State := withForm defaultValues false st.

(** The first render: [isLoading] true, no profile, no error, an empty
    [sleepInfo], the default values. *)
Definition initialState : State := {|
  isLoading := true;
  isExistingProfile := false;
  sleepDurationError := None;
  sleepInfo := {| duration := ""; midStageTime := ""; finalStageTime := "" |};
  form := defaultValues;
  isDirty := false;
  updateIsPending := false;
|}.

Definition sleepDurationMessage : string :=
  "Sleep duration must be at least 4 hours.".

(** A [string | null] used as a condition. *)
Definition truthyError (e : option string) : bool :=
  match e with
  | Some s => truthy s
  | None => false
  end.

Section Effects.

Variable midnight : Z.
Variable zoneSuffix : string.

(** The effect on [[bedTime, wakeupTime]]. *)
Definition durationEffect (st : State) : State :=
  let bedTime := bedTime (form st) in
  let wakeupTime := wakeupTime (form st) in
  if truthy bedTime && truthy wakeupTime then
    if tooShort midnight bedTime wakeupTime then
      setSleepInfo
        {| duration := ""; midStageTime := ""; finalStageTime := "" |}
        (setSleepDurationError (Some sleepDurationMessage) st)
    else
      setSleepInfo
        {| duration :=
             numberToString (hours midnight bedTime wakeupTime) ++ " hours "
             ++ numberToString (minutes midnight bedTime wakeupTime)
             ++ " minutes";
           midStageTime :=
             slice_0_5 (toTimeString midnight zoneSuffix
                          (midStageDate midnight bedTime));
           finalStageTime :=
             slice_0_5 (toTimeString midnight zoneSuffix
                          (finalStageDate midnight bedTime wakeupTime)) |}
        (setSleepDurationError None st)
  else st.

End Effects.

(** *** The remote profile and the calls the component makes *)

Module Api.

(** The record [getUserTemperatureProfile] returns and
    [updateUserTemperatureProfile] takes. *)
Record Profile : Type := {
  bedTime : string;
  wakeupTime : string;
  initialSleepLevel : number;
  midStageSleepLevel : number;
  finalSleepLevel : number;
  timezoneTZ : string;
}.

Inductive Query : Type :=
| pending
| isSuccess (data : Profile)
| isError.

End Api.

Inductive call : Type :=
| console_log (message : string) (data : option Api.Profile)
| console_error (message : string)
| updateProfileMutation_mutate (mutationData : Api.Profile)
| deleteProfileMutation_mutate.

Definition isWrite (c : call) : bool :=
  match c with
  | updateProfileMutation_mutate _ => true
  | _ => false
  end.

(** The effect on the profile query. *)
Definition profileEffect (q : Api.Query) (st : State) : State :=
  match q with
  | Api.isSuccess profile =>
      let v := {|
        bedTime := slice_0_5 (Api.bedTime profile);
        wakeupTime := slice_0_5 (Api.wakeupTime profile);
        initialSleepLevel := decode (Api.initialSleepLevel profile);
        midStageSleepLevel := decode (Api.midStageSleepLevel profile);
        finalSleepLevel := decode (Api.finalSleepLevel profile);
        timezone := {| value := Api.timezoneTZ profile;
                       altName := None; abbrev := None;
                       label := None; offset := None |};
      |} in
      setIsLoading false (setIsExistingProfile true (withForm v (isDirty st) st))
  | Api.isError =>
      setIsLoading false (setIsExistingProfile false st)
  | Api.pending => st
  end.

Definition formatTimeForAPI (time : string) : string := time ++ ":00.000000".

Definition mutationData (data : TemperatureProfileForm) : Api.Profile := {|
  Api.bedTime := formatTimeForAPI (bedTime data);
  Api.wakeupTime := formatTimeForAPI (wakeupTime data);
  Api.initialSleepLevel := encode (initialSleepLevel data);
  Api.midStageSleepLevel := encode (midStageSleepLevel data);
  Api.finalSleepLevel := encode (finalSleepLevel data);
  Api.timezoneTZ := value (timezone data);
|}.

(** [onSubmit], in a render whose state is [st]. *)
Definition onSubmit (st : State) (data : TemperatureProfileForm) : list call :=
  if truthyError (sleepDurationError st) then []
  else
    [ console_log "Data being sent to server:" (Some (mutationData data));
      updateProfileMutation_mutate (mutationData data) ].

(** [handleSubmit(onSubmit)]: the resolver runs the schema on the form
    values and [onSubmit] is called only when there is no issue. *)
Definition handleSubmit (st : State) : list call :=
  match temperatureProfileSchema (form st) with
  | [] => onSubmit st (form st)
  | _ :: _ => []
  end.

(** The [disabled] attribute of the submit button. *)
Definition submitDisabled (st : State) : bool :=
  updateIsPending st || truthyError (sleepDurationError st)
  || negb (isDirty st).

(** [onDelete]; [confirmed] is the answer of [window.confirm]. *)
Definition onDelete (confirmed : bool) : list call :=
  if confirmed then [deleteProfileMutation_mutate] else [].

(** [onSuccess] of the update and of the delete mutation. *)
Definition updateProfile_onSuccess (st : State) : list call * State :=
  ([console_log "Temperature profile updated successfully" None],
   setIsExistingProfile true st).

Definition deleteProfile_onSuccess (st : State) : list call * State :=
  ([console_log "Temperature profile deleted successfully" None],
   reset (setIsExistingProfile false st)).

(** *** The component as a machine

    An event runs its handler; the duration effect then runs on the new
    values.  (React runs it only when [bedTime] or [wakeupTime] changed;
    it writes nothing but [sleepDurationError] and [sleepInfo], which no
    handler writes, so running it again on unchanged values changes
    nothing.) *)

Inductive levelField : Type := initial | midStage | final.

Definition getLevel (f : levelField) (v : TemperatureProfileForm) : number :=
  match f with
  | initial => initialSleepLevel v
  | midStage => midStageSleepLevel v
  | final => finalSleepLevel v
  end.

Definition setLevel (f : levelField) (x : number) (v : TemperatureProfileForm)
  : TemperatureProfileForm :=
  {| bedTime := bedTime v; wakeupTime := wakeupTime v;
     initialSleepLevel := match f with initial => x | _ => initialSleepLevel v end;
     midStageSleepLevel := match f with midStage => x | _ => midStageSleepLevel v end;
     finalSleepLevel := match f with final => x | _ => finalSleepLevel v end;
     timezone := timezone v |}.

Definition setBedTime (s : string) (v : TemperatureProfileForm)
  : TemperatureProfileForm :=
  {| bedTime := s; wakeupTime := wakeupTime v;
     initialSleepLevel := initialSleepLevel v;
     midStageSleepLevel := midStageSleepLevel v;
     finalSleepLevel := finalSleepLevel v; timezone := timezone v |}.

Definition setWakeupTime (s : string) (v : TemperatureProfileForm)
  : TemperatureProfileForm :=
  {| bedTime := bedTime v; wakeupTime := s;
     initialSleepLevel := initialSleepLevel v;
     midStageSleepLevel := midStageSleepLevel v;
     finalSleepLevel := finalSleepLevel v; timezone := timezone v |}.

Definition setTimezone (z : Timezone) (v : TemperatureProfileForm)
  : TemperatureProfileForm :=
  {| bedTime := bedTime v; wakeupTime := wakeupTime v;
     initialSleepLevel := initialSleepLevel v;
     midStageSleepLevel := midStageSleepLevel v;
     finalSleepLevel := finalSleepLevel v; timezone := z |}.

Inductive event : Type :=
| QuerySettled (q : Api.Query)
| BedTimeInput (s : string)
| WakeupTimeInput (s : string)
| TimezoneSelected (z : Timezone)
| MinusClicked (f : levelField)    (* [Math.max(-10, Number(value) - 1)] *)
| PlusClicked (f : levelField)     (* [Math.min(10, Number(value) + 1)] *)
| UpdateStarted
| UpdateSucceeded
| UpdateFailed
| DeleteSucceeded
| DeleteFailed.

Definition handle (ev : event) (st : State) : State :=
  match ev with
  | QuerySettled q => profileEffect q st
  | BedTimeInput s => fieldChange (setBedTime s (form st)) st
  | WakeupTimeInput s => fieldChange (setWakeupTime s (form st)) st
  | TimezoneSelected z => fieldChange (setTimezone z (form st)) st
  | MinusClicked f =>
      fieldChange
        (setLevel f (Math_max (ofZ (-10)) (sub (getLevel f (form st)) (ofZ 1)))
           (form st)) st
  | PlusClicked f =>
      fieldChange
        (setLevel f (Math_min (ofZ 10) (add (getLevel f (form st)) (ofZ 1)))
           (form st)) st
  | UpdateStarted => setUpdateIsPending true st
  | UpdateSucceeded =>
      setUpdateIsPending false (snd (updateProfile_onSuccess st))
  | UpdateFailed => setUpdateIsPending false st
  | DeleteSucceeded => snd (deleteProfile_onSuccess st)
  | DeleteFailed => st
  end.

Section Machine.

Variable midnight : Z.
Variable zoneSuffix : string.

Definition step (ev : event) (st : State) : State :=
  durationEffect midnight zoneSuffix (handle ev st).

(** The states the component can be in: the mounted one, and those an
    event leads to. *)
Inductive reachable : State -> Prop :=
| reachable_mount :
    reachable (durationEffect midnight zoneSuffix initialState)
| reachable_step (ev : event) (st : State) :
    reachable st -> reachable (step ev st).

End Machine.

(** ** Clock times as the time input writes them *)

(** [HH:MM] for a minute of the day. *)
Definition formatHHMM (t : Z) : string :=
  pad2 (t / 60) ++ ":" ++ pad2 (t mod 60).

(** The time value of 2000-01-01T00:00:00 in a zone at UTC+0, and what
    [toTimeString] appends there, for concrete runs. *)
Definition utcMidnight : Z := 946684800000.
Definition utcSuffix : string := " GMT+0000 (Coordinated Universal Time)".

(** The state of a form holding the two times. *)
Definition withTimes (bed wake : string) (st : State) : State :=
  withForm (setWakeupTime wake (setBedTime bed (form st))) true st.

(** The wake-up minute counted from the midnight before bed time: on the
    next day when the wake-up clock time is not after the bed time. *)
Definition adjustedWake (bed wake : Z) : Z :=
  if wake <=? bed then wake + 1440 else wake.

(** A stored profile as [onSubmit] writes it: both times in the
    [HH:MM:00.000000] form, whole-number levels, a zone name. *)
Definition storedProfile (bed wake : Z) (l1 l2 l3 : Z) (zone : string)
  : Api.Profile := {|
  Api.bedTime := formatTimeForAPI (formatHHMM bed);
  Api.wakeupTime := formatTimeForAPI (formatHHMM wake);
  Api.initialSleepLevel := ofZ l1;
  Api.midStageSleepLevel := ofZ l2;
  Api.finalSleepLevel := ofZ l3;
  Api.timezoneTZ := zone;
|}.

(** A field's list of issues is empty. *)
Definition accepted (l : list issue) : bool :=
  match l with [] => true | _ :: _ => false end.

(** The [sleepInfo] of the first render and of the too-short branch. *)
Definition noSleepInfo : SleepInfo :=
  {| duration := ""; midStageTime := ""; finalStageTime := "" |}.

(** The events that leave both time fields alone. *)
Definition keepsTimes (ev : event) : bool :=
  match ev with
  | TimezoneSelected _ | MinusClicked _ | PlusClicked _
  | UpdateStarted | UpdateSucceeded | UpdateFailed | DeleteFailed
  | QuerySettled Api.pending | QuerySettled Api.isError => true
  | _ => false
  end.

(** * Properties *)

(** ** Checking a property on every value of a range *)

Lemma zrange_In (lo : Z) (n : nat) (z : Z) :
  lo <= z < lo + Z.of_nat n -> In z (zrange lo n).
Proof.
  intros Hz. unfold zrange. apply in_map_iff.
  exists (Z.to_nat (z - lo)). split; [lia|].
  apply in_seq. lia.
Qed.

Lemma zrange_forallb (p : Z -> bool) (lo : Z) (n : nat) :
  forallb p (zrange lo n) = true ->
  forall z, lo <= z < lo + Z.of_nat n -> p z = true.
Proof.
  intros Hall z Hz. rewrite forallb_forall in Hall.
  apply Hall, zrange_In, Hz.
Qed.

(** ** Digits and clock strings *)

Lemma digitChar_spec (d : Z) :
  0 <= d <= 9 -> isDigit (digitChar d) = true /\ digitValue (digitChar d) = d.
Proof.
  intros Hd.
  assert (Hcases : d = 0 \/ d = 1 \/ d = 2 \/ d = 3 \/ d = 4 \/ d = 5 \/
                   d = 6 \/ d = 7 \/ d = 8 \/ d = 9) by lia.
  repeat (destruct Hcases as [-> | Hcases]; [split; reflexivity|]).
  subst d. split; reflexivity.
Qed.

Lemma pad2_digits (n : Z) :
  0 <= n < 100 ->
  (isDigit (digitChar (n / 10)) = true /\ isDigit (digitChar (n mod 10)) = true)
  /\ 10 * digitValue (digitChar (n / 10)) + digitValue (digitChar (n mod 10)) = n.
Proof.
  intros Hn.
  assert (H1 : 0 <= n / 10 <= 9).
  { split; [apply Z.div_pos; lia|].
    assert (n / 10 < 10) by (apply Z.div_lt_upper_bound; lia). lia. }
  assert (H2 : 0 <= n mod 10 <= 9).
  { pose proof (Z.mod_pos_bound n 10). lia. }
  destruct (digitChar_spec _ H1) as [D1 V1].
  destruct (digitChar_spec _ H2) as [D2 V2].
  rewrite V1, V2. repeat split; trivial.
  pose proof (Z.div_mod n 10). lia.
Qed.

Lemma clock_parts (h m : Z) :
  0 <= h < 100 -> 0 <= m < 100 ->
  Regex.test HHMM_regex (pad2 h ++ ":" ++ pad2 m) = true
  /\ hourOf (pad2 h ++ ":" ++ pad2 m) = h
  /\ minuteOf (pad2 h ++ ":" ++ pad2 m) = m.
Proof.
  intros Hh Hm.
  destruct (pad2_digits h Hh) as [[A1 A2] A3].
  destruct (pad2_digits m Hm) as [[B1 B2] B3].
  unfold pad2, HHMM_regex, Regex.times, hourOf, minuteOf.
  cbn [repeat app append Regex.test Regex.atom_test].
  rewrite A1, A2, B1, B2, A3, B3.
  repeat split; reflexivity.
Qed.

Lemma minute_of_day_parts (t : Z) :
  0 <= t < 1440 -> 0 <= t / 60 <= 23 /\ 0 <= t mod 60 <= 59.
Proof.
  intros Ht. split.
  - split; [apply Z.div_pos; lia|].
    assert (t / 60 < 24) by (apply Z.div_lt_upper_bound; lia). lia.
  - pose proof (Z.mod_pos_bound t 60). lia.
Qed.

Lemma twoDigits_pad2 (n : Z) :
  0 <= n < 100 ->
  twoDigits (digitChar (n / 10)) (digitChar (n mod 10)) = Some n.
Proof.
  intros Hn. destruct (pad2_digits n Hn) as [[D1 D2] V].
  unfold twoDigits. rewrite D1, D2, V. reflexivity.
Qed.

(** A string of the [HH:MM] shape in the template is the clock time it
    spells, local, when hour and minute are in range, and no time at all
    otherwise. *)
Lemma parseTime_clock (h m : Z) :
  0 <= h < 100 -> 0 <= m < 100 ->
  parseTime ((pad2 h ++ ":" ++ pad2 m) ++ ":00")
  = option_map (fun t => (t, None)) (clockMs h m 0 0).
Proof.
  intros Hh Hm. unfold pad2. cbn [append]. unfold parseTime.
  rewrite (twoDigits_pad2 h Hh), (twoDigits_pad2 m Hm). reflexivity.
Qed.

(** A minute of the day, written by the time input, is read back by
    [new Date] as that minute of 2000-01-01. *)
Lemma newDate_formatHHMM (midnight t : Z) :
  0 <= t < 1440 ->
  newDate_2000_01_01T midnight (formatHHMM t)
  = Some (midnight + t * 60 * 1000).
Proof.
  intros Ht. destruct (minute_of_day_parts t Ht) as [Hh Hm].
  unfold newDate_2000_01_01T, formatHHMM.
  rewrite parseTime_clock by lia. unfold clockMs.
  replace ((t / 60 <=? 23) && (t mod 60 <=? 59) && (0 <=? 59)) with true
    by (symmetry; rewrite !andb_true_iff; repeat split; apply Z.leb_le; lia).
  cbn [orb option_map]. f_equal.
  pose proof (Z.div_mod t 60). lia.
Qed.

(** The first five characters [toTimeString] prints are the minute of the
    day of the instant. *)
Lemma toTimeString_slice (midnight : Z) (zoneSuffix : string) (m : Z) :
  slice_0_5 (toTimeString midnight zoneSuffix (Some (midnight + m * 60 * 1000)))
  = formatHHMM (m mod 1440).
Proof.
  unfold toTimeString, slice_0_5, formatHHMM, pad2.
  cbn [append substring].
  replace (midnight + m * 60 * 1000 - midnight) with (m * 60 * 1000) by lia.
  rewrite Z.div_mul by lia.
  replace 86400 with (1440 * 60) by reflexivity.
  rewrite Z.mul_mod_distr_r by lia.
  replace 3600 with (60 * 60) by reflexivity.
  rewrite <- Z.div_div by lia.
  rewrite !Z.div_mul by lia.
  reflexivity.
Qed.

(** ** The duration effect on clock times *)

Section ParsedTimes.

Variables (midnight : Z) (zoneSuffix : string).
Variables (bed wake : Z).
Hypothesis Hbed : 0 <= bed < 1440.
Hypothesis Hwake : 0 <= wake < 1440.

Lemma bedDate_parsed :
  bedDate midnight (formatHHMM bed) = Some (midnight + bed * 60 * 1000).
Proof. apply newDate_formatHHMM, Hbed. Qed.

Lemma wakeIsNextDay_parsed :
  wakeIsNextDay midnight (formatHHMM bed) (formatHHMM wake) = (wake <=? bed).
Proof.
  unfold wakeIsNextDay, bedDate.
  rewrite !newDate_formatHHMM by assumption.
  unfold Date_leb, getTime.
  destruct (Z.leb_spec wake bed); [apply Z.leb_le | apply Z.leb_gt]; lia.
Qed.

Lemma wakeDate_parsed :
  wakeDate midnight (formatHHMM bed) (formatHHMM wake)
  = Some (midnight + adjustedWake bed wake * 60 * 1000).
Proof.
  unfold wakeDate. rewrite wakeIsNextDay_parsed.
  unfold adjustedWake.
  rewrite newDate_formatHHMM by assumption.
  destruct (wake <=? bed); unfold setDate_next, msPerDay; f_equal; lia.
Qed.

Lemma durationMs_parsed :
  durationMs midnight (formatHHMM bed) (formatHHMM wake)
  = Some ((adjustedWake bed wake - bed) * (1000 * 60)).
Proof.
  unfold durationMs. rewrite wakeDate_parsed, bedDate_parsed.
  unfold getTime. f_equal. lia.
Qed.

Lemma durationMinutes_parsed :
  durationMinutes midnight (formatHHMM bed) (formatHHMM wake)
  = Some (adjustedWake bed wake - bed).
Proof.
  unfold durationMinutes. rewrite durationMs_parsed.
  rewrite Z.div_mul by lia. reflexivity.
Qed.

Lemma hours_parsed :
  hours midnight (formatHHMM bed) (formatHHMM wake)
  = Some ((adjustedWake bed wake - bed) / 60).
Proof.
  unfold hours. rewrite durationMs_parsed. f_equal.
  replace (1000 * 60 * 60) with (60 * (1000 * 60)) by reflexivity.
  rewrite Z.div_mul_cancel_r by lia. reflexivity.
Qed.

Lemma tooShort_parsed :
  tooShort midnight (formatHHMM bed) (formatHHMM wake)
  = (adjustedWake bed wake - bed <? 240).
Proof.
  unfold tooShort. rewrite hours_parsed.
  set (d := adjustedWake bed wake - bed).
  destruct (Z.ltb_spec d 240) as [Hlt | Hge].
  - apply Z.ltb_lt.
    assert (d / 60 < 4) by (apply Z.div_lt_upper_bound; lia). lia.
  - apply Z.ltb_ge.
    assert (4 <= d / 60) by (apply Z.div_le_lower_bound; lia). lia.
Qed.

Lemma adjustedWake_duration :
  0 < adjustedWake bed wake - bed <= 1440.
Proof.
  unfold adjustedWake. destruct (Z.leb_spec wake bed); lia.
Qed.

Lemma truthy_formatHHMM (t : Z) : truthy (formatHHMM t) = true.
Proof. reflexivity. Qed.

(** The effect on a form that holds the two clock times. *)
Lemma durationEffect_parsed (st : State) :
  bedTime (form st) = (formatHHMM bed) ->
  wakeupTime (form st) = (formatHHMM wake) ->
  durationEffect midnight zoneSuffix st
  = if adjustedWake bed wake - bed <? 240 then
      setSleepInfo
        {| duration := ""; midStageTime := ""; finalStageTime := "" |}
        (setSleepDurationError (Some sleepDurationMessage) st)
    else
      setSleepInfo
        {| duration :=
             numberToString (hours midnight (formatHHMM bed) (formatHHMM wake))
             ++ " hours "
             ++ numberToString (minutes midnight (formatHHMM bed) (formatHHMM wake))
             ++ " minutes";
           midStageTime := formatHHMM ((bed + 60) mod 1440);
           finalStageTime :=
             formatHHMM ((adjustedWake bed wake - 120) mod 1440) |}
        (setSleepDurationError None st).
Proof.
  intros Eb Ew. unfold durationEffect. rewrite Eb, Ew.
  rewrite !truthy_formatHHMM. cbn [andb].
  rewrite tooShort_parsed.
  destruct (adjustedWake bed wake - bed <? 240); [reflexivity|].
  unfold midStageDate, finalStageDate, newDate_ms.
  rewrite bedDate_parsed, wakeDate_parsed. unfold getTime.
  replace (midnight + bed * 60 * 1000 + 60 * 60 * 1000)
    with (midnight + (bed + 60) * 60 * 1000) by lia.
  replace (midnight + adjustedWake bed wake * 60 * 1000 - 2 * 60 * 60 * 1000)
    with (midnight + (adjustedWake bed wake - 120) * 60 * 1000) by lia.
  rewrite !toTimeString_slice. reflexivity.
Qed.

End ParsedTimes.

(** ** Duration and rollover *)

(** C5. For parsed times with wake <= bed (equality included) the wake-up
    is taken on the next day and the duration is wake - bed + 1440 minutes;
    with wake > bed it is taken on the same day and the duration is
    wake - bed minutes. *)
Theorem rollover_duration (midnight bed wake : Z) :
  0 <= bed < 1440 -> 0 <= wake < 1440 ->
  (wake <= bed ->
   wakeIsNextDay midnight (formatHHMM bed) (formatHHMM wake) = true
   /\ durationMinutes midnight (formatHHMM bed) (formatHHMM wake)
      = Some (wake - bed + 1440))
  /\ (wake > bed ->
      wakeIsNextDay midnight (formatHHMM bed) (formatHHMM wake) = false
      /\ durationMinutes midnight (formatHHMM bed) (formatHHMM wake)
         = Some (wake - bed)).
Proof.
  intros Hb Hw.
  rewrite wakeIsNextDay_parsed, durationMinutes_parsed by assumption.
  unfold adjustedWake.
  split; intros Hcmp.
  - replace (wake <=? bed) with true by (symmetry; apply Z.leb_le; lia).
    split; [reflexivity | f_equal; lia].
  - replace (wake <=? bed) with false by (symmetry; apply Z.leb_gt; lia).
    split; reflexivity.
Qed.

Lemma rollover_duration_witness :
  (0 <= 1410 < 1440 /\ 0 <= 120 < 1440 /\ 120 <= 1410)
  /\ wakeIsNextDay utcMidnight (formatHHMM 1410) (formatHHMM 120) = true
  /\ durationMinutes utcMidnight (formatHHMM 1410) (formatHHMM 120)
     = Some (120 - 1410 + 1440).
Proof.
  split; [lia|].
  apply (rollover_duration utcMidnight 1410 120); lia.
Defined.

(** C1, as the code has it. For parsed times the duration is a whole
    number of minutes in (0, 1440]: never 0, and 1440 exactly when the two
    clock times are equal. *)
Theorem duration_range (midnight bed wake : Z) :
  0 <= bed < 1440 -> 0 <= wake < 1440 ->
  exists d,
    durationMinutes midnight (formatHHMM bed) (formatHHMM wake) = Some d
    /\ durationMs midnight (formatHHMM bed) (formatHHMM wake)
       = Some (d * 60000)
    /\ 0 < d <= 1440
    /\ (d = 1440 <-> wake = bed).
Proof.
  intros Hb Hw. exists (adjustedWake bed wake - bed).
  rewrite durationMinutes_parsed, durationMs_parsed by assumption.
  repeat split; try reflexivity;
    unfold adjustedWake in *; destruct (Z.leb_spec wake bed); lia.
Qed.

Lemma duration_range_witness :
  (0 <= 1320 < 1440 /\ 0 <= 360 < 1440)
  /\ exists d,
      durationMinutes utcMidnight (formatHHMM 1320) (formatHHMM 360) = Some d
      /\ durationMs utcMidnight (formatHHMM 1320) (formatHHMM 360)
         = Some (d * 60000)
      /\ 0 < d <= 1440
      /\ (d = 1440 <-> 360 = 1320).
Proof.
  split; [lia|].
  apply (duration_range utcMidnight 1320 360); lia.
Defined.

(** C1, as stated, fails: with bed and wake-up both at 08:00 the wake-up is
    moved to the next day and the duration is 1440 minutes, outside
    [0, 1440). *)
Lemma duration_1440_when_equal :
  formatHHMM 480 = "08:00"
  /\ durationMinutes utcMidnight "08:00" "08:00" = Some 1440
  /\ ~ (forall d, durationMinutes utcMidnight "08:00" "08:00" = Some d ->
                  0 <= d < 1440).
Proof.
  split; [reflexivity|]. split; [reflexivity|].
  intros H. specialize (H 1440 eq_refl). lia.
Qed.

(** ** The four-hour floor and the stage times *)

(** C2. With parsed times in the form, the duration in minutes is the
    rollover-adjusted wake minus bed; when it is under 240 the effect sets
    the error to exactly "Sleep duration must be at least 4 hours." and
    clears the derived duration and stage times; when it is 240 or more
    the effect clears the error and fills both stage times in. *)
Theorem minimum_duration
  (midnight : Z) (zoneSuffix : string) (st : State) (bed wake : Z) :
  0 <= bed < 1440 -> 0 <= wake < 1440 ->
  bedTime (form st) = formatHHMM bed ->
  wakeupTime (form st) = formatHHMM wake ->
  durationMinutes midnight (formatHHMM bed) (formatHHMM wake)
  = Some (adjustedWake bed wake - bed)
  /\ (adjustedWake bed wake - bed < 240 ->
      sleepDurationError (durationEffect midnight zoneSuffix st)
      = Some "Sleep duration must be at least 4 hours."
      /\ sleepInfo (durationEffect midnight zoneSuffix st)
         = {| duration := ""; midStageTime := ""; finalStageTime := "" |})
  /\ (240 <= adjustedWake bed wake - bed ->
      sleepDurationError (durationEffect midnight zoneSuffix st) = None
      /\ midStageTime (sleepInfo (durationEffect midnight zoneSuffix st))
         <> ""
      /\ finalStageTime (sleepInfo (durationEffect midnight zoneSuffix st))
         <> "").
Proof.
  intros Hb Hw Eb Ew.
  rewrite durationMinutes_parsed by assumption.
  rewrite (durationEffect_parsed midnight zoneSuffix bed wake Hb Hw st Eb Ew).
  split; [reflexivity|]. split; intros Hd.
  - replace (adjustedWake bed wake - bed <? 240) with true
      by (symmetry; apply Z.ltb_lt; lia).
    split; reflexivity.
  - replace (adjustedWake bed wake - bed <? 240) with false
      by (symmetry; apply Z.ltb_ge; lia).
    cbn [sleepDurationError setSleepInfo setSleepDurationError sleepInfo
         midStageTime finalStageTime].
    repeat split; try reflexivity; unfold formatHHMM, pad2; discriminate.
Qed.

Lemma minimum_duration_witness :
  (0 <= 1410 < 1440 /\ 0 <= 120 < 1440 /\ adjustedWake 1410 120 - 1410 < 240)
  /\ durationMinutes utcMidnight "23:30" "02:00" = Some 150
  /\ sleepDurationError
       (durationEffect utcMidnight utcSuffix
          (withTimes "23:30" "02:00" initialState))
     = Some "Sleep duration must be at least 4 hours."
  /\ sleepInfo
       (durationEffect utcMidnight utcSuffix
          (withTimes "23:30" "02:00" initialState))
     = {| duration := ""; midStageTime := ""; finalStageTime := "" |}.
Proof.
  split; [repeat split; try lia; reflexivity|].
  destruct (minimum_duration utcMidnight utcSuffix
              (withTimes "23:30" "02:00" initialState) 1410 120)
    as (Hd & Hshort & _); [lia | lia | reflexivity | reflexivity |].
  split; [exact Hd|]. apply Hshort. reflexivity.
Defined.

(** C3. With parsed times of a duration of 240 minutes or more, the
    mid-stage time shown is (bed + 60) mod 1440 and the final-stage time is
    (rollover-adjusted wake - 120) mod 1440; for bed 22:00 and wake 06:00
    the duration is 480 minutes (8 hours 0 minutes), the mid-stage time
    23:00 and the final-stage time 04:00. *)
Theorem stage_times (midnight : Z) (zoneSuffix : string) (st : State) :
  (forall bed wake d,
     0 <= bed < 1440 -> 0 <= wake < 1440 ->
     bedTime (form st) = formatHHMM bed ->
     wakeupTime (form st) = formatHHMM wake ->
     durationMinutes midnight (formatHHMM bed) (formatHHMM wake) = Some d ->
     240 <= d ->
     midStageTime (sleepInfo (durationEffect midnight zoneSuffix st))
     = formatHHMM ((bed + 60) mod 1440)
     /\ finalStageTime (sleepInfo (durationEffect midnight zoneSuffix st))
        = formatHHMM ((adjustedWake bed wake - 120) mod 1440))
  /\ durationMinutes midnight "22:00" "06:00" = Some 480
  /\ sleepInfo (durationEffect midnight zoneSuffix
                  (withTimes "22:00" "06:00" st))
     = {| duration := "8 hours 0 minutes";
          midStageTime := "23:00";
          finalStageTime := "04:00" |}.
Proof.
  split; [|split].
  - intros bed wake d Hb Hw Eb Ew Hd Hmin.
    rewrite durationMinutes_parsed in Hd by assumption.
    injection Hd as Hd.
    rewrite (durationEffect_parsed midnight zoneSuffix bed wake Hb Hw st Eb Ew).
    replace (adjustedWake bed wake - bed <? 240) with false
      by (symmetry; apply Z.ltb_ge; lia).
    split; reflexivity.
  - change "22:00" with (formatHHMM 1320). change "06:00" with (formatHHMM 360).
    rewrite durationMinutes_parsed by lia. reflexivity.
  - rewrite (durationEffect_parsed midnight zoneSuffix 1320 360);
      [| lia | lia | reflexivity | reflexivity].
    unfold minutes. rewrite hours_parsed, durationMs_parsed by lia.
    reflexivity.
Qed.

Lemma stage_times_witness :
  (0 <= 1410 < 1440 /\ 0 <= 210 < 1440 /\ 240 <= 240)
  /\ midStageTime
       (sleepInfo (durationEffect utcMidnight utcSuffix
                     (withTimes "23:30" "03:30" initialState)))
     = formatHHMM ((1410 + 60) mod 1440)
  /\ finalStageTime
       (sleepInfo (durationEffect utcMidnight utcSuffix
                     (withTimes "23:30" "03:30" initialState)))
     = formatHHMM ((adjustedWake 1410 210 - 120) mod 1440).
Proof.
  split; [lia|].
  apply (proj1 (stage_times utcMidnight utcSuffix
                  (withTimes "23:30" "03:30" initialState)) 1410 210 240);
    [lia | lia | reflexivity | reflexivity | reflexivity | lia].
Defined.

(** C8. In a window of 240 minutes or more the two transition instants do
    not invert: the mid-stage instant, 60 minutes after the bed instant,
    is strictly before the final-stage instant, 120 minutes before the
    rollover-adjusted wake instant, and both lie inside the window. *)
Theorem stages_do_not_invert (midnight bed wake d : Z) :
  0 <= bed < 1440 -> 0 <= wake < 1440 ->
  durationMinutes midnight (formatHHMM bed) (formatHHMM wake) = Some d ->
  240 <= d ->
  exists b m f w,
    getTime (bedDate midnight (formatHHMM bed)) = Some b
    /\ getTime (midStageDate midnight (formatHHMM bed)) = Some m
    /\ getTime (finalStageDate midnight (formatHHMM bed) (formatHHMM wake))
       = Some f
    /\ getTime (wakeDate midnight (formatHHMM bed) (formatHHMM wake)) = Some w
    /\ m = b + 60 * 60000
    /\ f = w - 120 * 60000
    /\ b < m /\ m < f /\ f < w.
Proof.
  intros Hb Hw Hd Hmin.
  rewrite durationMinutes_parsed in Hd by assumption. injection Hd as Hd.
  unfold midStageDate, finalStageDate, newDate_ms.
  rewrite bedDate_parsed, wakeDate_parsed by assumption.
  unfold getTime.
  eexists _, _, _, _.
  repeat (split; [reflexivity|]).
  lia.
Qed.

Lemma stages_do_not_invert_witness :
  (0 <= 1410 < 1440 /\ 0 <= 210 < 1440 /\ 240 <= 240)
  /\ exists b m f w,
      getTime (bedDate utcMidnight (formatHHMM 1410)) = Some b
      /\ getTime (midStageDate utcMidnight (formatHHMM 1410)) = Some m
      /\ getTime (finalStageDate utcMidnight (formatHHMM 1410) (formatHHMM 210))
         = Some f
      /\ getTime (wakeDate utcMidnight (formatHHMM 1410) (formatHHMM 210))
         = Some w
      /\ m = b + 60 * 60000
      /\ f = w - 120 * 60000
      /\ b < m /\ m < f /\ f < w.
Proof.
  split; [lia|].
  apply (stages_do_not_invert utcMidnight 1410 210 240);
    [lia | lia | reflexivity | lia].
Defined.

(** ** The schema of the time fields *)

Lemma isDigit_spec (c : ascii) :
  isDigit c = true ->
  0 <= digitValue c <= 9 /\ digitChar (digitValue c) = c.
Proof.
  destruct c as [[] [] [] [] [] [] [] []]; intros H;
    try discriminate H; split; try reflexivity; unfold digitValue; cbn; lia.
Qed.

Lemma pad2_of_digits (a b : ascii) :
  isDigit a = true -> isDigit b = true ->
  0 <= 10 * digitValue a + digitValue b <= 99
  /\ pad2 (10 * digitValue a + digitValue b)
     = String a (String b EmptyString).
Proof.
  intros Ha Hb.
  destruct (isDigit_spec a Ha) as [Ra Ea].
  destruct (isDigit_spec b Hb) as [Rb Eb].
  split; [lia|]. unfold pad2.
  replace ((10 * digitValue a + digitValue b) / 10) with (digitValue a)
    by (apply (Z.div_unique _ 10 _ (digitValue b)); lia).
  replace ((10 * digitValue a + digitValue b) mod 10) with (digitValue b)
    by (apply (Z.mod_unique _ 10 (digitValue a)); lia).
  rewrite Ea, Eb. reflexivity.
Qed.

Lemma HHMM_regex_inv (s : string) :
  Regex.test HHMM_regex s = true ->
  exists a b c d,
    s = String a (String b (String ":" (String c (String d EmptyString))))
    /\ isDigit a = true /\ isDigit b = true
    /\ isDigit c = true /\ isDigit d = true.
Proof.
  unfold HHMM_regex, Regex.times. cbn [repeat app].
  destruct s as [|a [|b [|k [|c [|d [|x s]]]]]]; cbn [Regex.test Regex.atom_test];
    intros H; try discriminate H;
    repeat (apply andb_true_iff in H; destruct H as [? H]);
    try discriminate H.
  exists a, b, c, d.
  match goal with E : Ascii.eqb _ k = true |- _ => apply Ascii.eqb_eq in E; subst k end.
  repeat split; assumption.
Qed.

(** C4, as the code has it. A time field is accepted exactly when it is two
    digits, a colon, two digits, whatever hour (00..99) and minute (00..99)
    they spell; every other string gets the one issue "Must be in HH:MM
    format". *)
Theorem timeSchema_accepts (s : string) :
  (timeSchema s = [] <->
   exists h m, 0 <= h <= 99 /\ 0 <= m <= 99 /\ s = pad2 h ++ ":" ++ pad2 m)
  /\ (timeSchema s <> [] ->
      timeSchema s = [invalid_string "Must be in HH:MM format"]).
Proof.
  unfold timeSchema. split; [split|].
  - destruct (Regex.test HHMM_regex s) eqn:E; [|discriminate].
    intros _. destruct (HHMM_regex_inv s E) as (a & b & c & d & -> & Ha & Hb & Hc & Hd).
    destruct (pad2_of_digits a b Ha Hb) as [Rh Eh].
    destruct (pad2_of_digits c d Hc Hd) as [Rm Em].
    exists (10 * digitValue a + digitValue b), (10 * digitValue c + digitValue d).
    rewrite Eh, Em. repeat split; try lia.
  - intros (h & m & Hh & Hm & ->).
    destruct (clock_parts h m) as [-> _]; [lia | lia | reflexivity].
  - destruct (Regex.test HHMM_regex s); [intros H; now elim H | reflexivity].
Qed.

Lemma timeSchema_accepts_witness :
  timeSchema "99:99" = []
  /\ timeSchema "7:00" = [invalid_string "Must be in HH:MM format"].
Proof.
  split.
  - apply (proj1 (timeSchema_accepts "99:99")).
    exists 99, 99. repeat split; try lia.
  - apply (proj2 (timeSchema_accepts "7:00")). discriminate.
Defined.

(** C4, as stated, fails: "25:00" and "12:61" match the digit pattern, spell
    an hour of 25 and a minute of 61, and are accepted; a form holding
    "25:00" as bed time raises no duration error and is written to the
    store. *)
Lemma out_of_range_time_accepted :
  Regex.test HHMM_regex "25:00" = true /\ hourOf "25:00" = 25
  /\ timeSchema "25:00" = []
  /\ Regex.test HHMM_regex "12:61" = true /\ minuteOf "12:61" = 61
  /\ timeSchema "12:61" = []
  /\ ~ (forall s, timeSchema s = [] <->
                  Regex.test HHMM_regex s = true
                  /\ 0 <= hourOf s <= 23 /\ 0 <= minuteOf s <= 59)
  /\ existsb isWrite
       (handleSubmit (durationEffect utcMidnight utcSuffix
                        (withTimes "25:00" "06:00" initialState))) = true.
Proof.
  repeat (split; [reflexivity|]).
  split; [|reflexivity].
  intros H. destruct (proj1 (H "25:00") eq_refl) as (_ & Hh & _).
  cbv in Hh. destruct Hh as [_ Hh]. apply Hh. reflexivity.
Qed.

(** ** The sleep-level scaling *)

Lemma sameValue_eq (x y : number) : sameValue x y = true -> x = y.
Proof.
  destruct x as [a| a | |s m e], y as [b|b| |s' m' e']; cbn [sameValue];
    intros H; try discriminate H; try reflexivity.
  - apply Bool.eqb_prop in H. now subst.
  - apply Bool.eqb_prop in H. now subst.
  - apply andb_true_iff in H. destruct H as [H He].
    apply andb_true_iff in H. destruct H as [Hs Hm].
    apply Bool.eqb_prop in Hs. apply Pos.eqb_eq in Hm. apply Z.eqb_eq in He.
    now subst.
Qed.

(** C6. Scaling up then down gives back every integer level in [-10, 10];
    scaling down then up gives back every stored multiple of 10 in
    [-100, 100]; encode(-10) = -100, decode(-100) = -10, encode(0) = 0. *)
Theorem codec_roundtrip :
  (forall level, -10 <= level <= 10 ->
                 decode (encode (ofZ level)) = ofZ level)
  /\ (forall stored, -100 <= stored <= 100 -> stored mod 10 = 0 ->
                     encode (decode (ofZ stored)) = ofZ stored)
  /\ encode (ofZ (-10)) = ofZ (-100)
  /\ decode (ofZ (-100)) = ofZ (-10)
  /\ encode (ofZ 0) = ofZ 0.
Proof.
  split; [|split; [|repeat split; reflexivity]].
  - intros level Hl. apply sameValue_eq.
    apply (zrange_forallb
             (fun l => sameValue (decode (encode (ofZ l))) (ofZ l)) (-10) 21);
      [vm_compute; reflexivity | lia].
  - intros stored Hs Hm. apply sameValue_eq.
    pose proof (Z.div_mod stored 10) as Hdm.
    replace stored with (10 * (stored / 10)) by lia.
    apply (zrange_forallb
             (fun k => sameValue (encode (decode (ofZ (10 * k)))) (ofZ (10 * k)))
             (-10) 21);
      [vm_compute; reflexivity | lia].
Qed.

Lemma codec_roundtrip_witness :
  (-10 <= 7 <= 10 /\ -100 <= -30 <= 100 /\ (-30) mod 10 = 0)
  /\ decode (encode (ofZ 7)) = ofZ 7
  /\ encode (decode (ofZ (-30))) = ofZ (-30).
Proof.
  split; [repeat split; lia|]. split.
  - apply (proj1 codec_roundtrip 7). lia.
  - apply (proj1 (proj2 codec_roundtrip) (-30)); [lia | reflexivity].
Defined.

(** C10. Scaling down then up gives back every stored integer in
    [-100, 100], multiple of 10 or not: a stored 55 becomes the level 5.5,
    the schema of the levels accepts every scaled-down value, the loaded
    form holds them as they are, and scaling up rounds back to the stored
    integer. *)
Theorem stored_roundtrip_all :
  (forall stored, -100 <= stored <= 100 ->
                  encode (decode (ofZ stored)) = ofZ stored)
  /\ denotes (decode (ofZ 55)) 11 2
  /\ (forall stored, -100 <= stored <= 100 ->
                     levelSchema (decode (ofZ stored)) = [])
  /\ (forall profile st,
        initialSleepLevel (form (profileEffect (Api.isSuccess profile) st))
        = decode (Api.initialSleepLevel profile)
        /\ midStageSleepLevel (form (profileEffect (Api.isSuccess profile) st))
           = decode (Api.midStageSleepLevel profile)
        /\ finalSleepLevel (form (profileEffect (Api.isSuccess profile) st))
           = decode (Api.finalSleepLevel profile)).
Proof.
  split; [|split; [|split]].
  - intros stored Hs. apply sameValue_eq.
    apply (zrange_forallb
             (fun s => sameValue (encode (decode (ofZ s))) (ofZ s)) (-100) 201);
      [vm_compute; reflexivity | lia].
  - vm_compute. split; reflexivity.
  - intros stored Hs.
    assert (H : match levelSchema (decode (ofZ stored)) with
                | [] => true
                | _ :: _ => false
                end = true).
    { apply (zrange_forallb
               (fun s => match levelSchema (decode (ofZ s)) with
                         | [] => true
                         | _ :: _ => false
                         end) (-100) 201);
        [vm_compute; reflexivity | lia]. }
    destruct (levelSchema (decode (ofZ stored))); [reflexivity | discriminate H].
  - intros profile st. repeat split; reflexivity.
Qed.

Lemma stored_roundtrip_all_witness :
  -100 <= 55 <= 100 /\ encode (decode (ofZ 55)) = ofZ 55.
Proof.
  split; [lia|]. apply (proj1 stored_roundtrip_all 55). lia.
Defined.

(** ** Submitting and deleting *)

Lemma handle_error (ev : event) (st : State) :
  sleepDurationError (handle ev st) = sleepDurationError st.
Proof. destruct ev as [[| |]| | | | | | | | | |]; reflexivity. Qed.

Lemma durationEffect_form (midnight : Z) (zoneSuffix : string) (st : State) :
  form (durationEffect midnight zoneSuffix st) = form st.
Proof.
  unfold durationEffect.
  destruct (truthy (bedTime (form st)) && truthy (wakeupTime (form st)));
    [|reflexivity].
  destruct (tooShort midnight (bedTime (form st)) (wakeupTime (form st)));
    reflexivity.
Qed.

Lemma durationEffect_error (midnight : Z) (zoneSuffix : string) (st : State) :
  sleepDurationError (durationEffect midnight zoneSuffix st)
  = if truthy (bedTime (form st)) && truthy (wakeupTime (form st)) then
      if tooShort midnight (bedTime (form st)) (wakeupTime (form st))
      then Some sleepDurationMessage else None
    else sleepDurationError st.
Proof.
  unfold durationEffect.
  destruct (truthy (bedTime (form st)) && truthy (wakeupTime (form st)));
    [|reflexivity].
  destruct (tooShort midnight (bedTime (form st)) (wakeupTime (form st)));
    reflexivity.
Qed.

Lemma tooShort_defaults (midnight : Z) :
  tooShort midnight "22:00" "06:00" = false.
Proof.
  change "22:00" with (formatHHMM 1320). change "06:00" with (formatHHMM 360).
  rewrite tooShort_parsed by lia. reflexivity.
Qed.

Lemma durationEffect_isExistingProfile
  (midnight : Z) (zoneSuffix : string) (st : State) :
  isExistingProfile (durationEffect midnight zoneSuffix st)
  = isExistingProfile st.
Proof.
  unfold durationEffect.
  destruct (truthy (bedTime (form st)) && truthy (wakeupTime (form st)));
    [|reflexivity].
  destruct (tooShort midnight (bedTime (form st)) (wakeupTime (form st)));
    reflexivity.
Qed.

(** In every state the component reaches, the error is absent or is the
    four-hour message, and it agrees with the test of the effect on the
    times the form holds when both are non-empty. *)
Lemma reachable_error (midnight : Z) (zoneSuffix : string) (st : State) :
  reachable midnight zoneSuffix st ->
  (sleepDurationError st = None
   \/ sleepDurationError st = Some sleepDurationMessage)
  /\ (truthy (bedTime (form st)) && truthy (wakeupTime (form st)) = true ->
      sleepDurationError st
      = if tooShort midnight (bedTime (form st)) (wakeupTime (form st))
        then Some sleepDurationMessage else None).
Proof.
  induction 1 as [|ev st Hst [IH _]].
  - rewrite durationEffect_error, durationEffect_form.
    cbn [initialState form defaultValues bedTime wakeupTime truthy andb].
    rewrite tooShort_defaults. split; [left|]; reflexivity.
  - unfold step. rewrite durationEffect_error, durationEffect_form.
    rewrite handle_error.
    destruct (truthy (bedTime (form (handle ev st)))
              && truthy (wakeupTime (form (handle ev st)))).
    + split; [|reflexivity].
      destruct (tooShort midnight _ _); [right | left]; reflexivity.
    + split; [exact IH | discriminate].
Qed.

(** C7. In every state the component reaches, while the duration error is
    set (or the times the form holds fail the four-hour test), the submit
    handler makes no call at all, so no payload is built and no write is
    started; the submit button is disabled as well. *)
Theorem no_write_while_invalid
  (midnight : Z) (zoneSuffix : string) (st : State) :
  reachable midnight zoneSuffix st ->
  sleepDurationError st <> None
  \/ truthy (bedTime (form st)) && truthy (wakeupTime (form st))
     && tooShort midnight (bedTime (form st)) (wakeupTime (form st)) = true ->
  (forall data, onSubmit st data = [])
  /\ handleSubmit st = []
  /\ existsb isWrite (handleSubmit st) = false
  /\ submitDisabled st = true.
Proof.
  intros Hreach Hinvalid.
  destruct (reachable_error midnight zoneSuffix st Hreach) as [Hval Hsync].
  assert (Herr : sleepDurationError st = Some sleepDurationMessage).
  { destruct Hinvalid as [Hset | Hshort].
    - destruct Hval as [Hnone | Hmsg]; [contradiction | exact Hmsg].
    - apply andb_true_iff in Hshort. destruct Hshort as [Htruthy Hshort].
      rewrite (Hsync Htruthy), Hshort. reflexivity. }
  assert (Hsubmit : forall data, onSubmit st data = []).
  { intros data. unfold onSubmit. rewrite Herr. reflexivity. }
  assert (Hhandle : handleSubmit st = []).
  { unfold handleSubmit.
    destruct (temperatureProfileSchema (form st)); [apply Hsubmit | reflexivity]. }
  repeat split.
  - exact Hsubmit.
  - exact Hhandle.
  - rewrite Hhandle. reflexivity.
  - unfold submitDisabled. rewrite Herr.
    cbn [truthyError sleepDurationMessage truthy].
    destruct (updateIsPending st); reflexivity.
Qed.

Lemma no_write_while_invalid_witness :
  sleepDurationError
    (step utcMidnight utcSuffix (WakeupTimeInput "23:00")
       (durationEffect utcMidnight utcSuffix initialState)) <> None
  /\ handleSubmit
       (step utcMidnight utcSuffix (WakeupTimeInput "23:00")
          (durationEffect utcMidnight utcSuffix initialState)) = [].
Proof.
  split; [discriminate|].
  apply (no_write_while_invalid utcMidnight utcSuffix
           (step utcMidnight utcSuffix (WakeupTimeInput "23:00")
              (durationEffect utcMidnight utcSuffix initialState))).
  - apply reachable_step, reachable_mount.
  - left. discriminate.
Defined.

(** C9. When a delete succeeds the form goes back to the default values -
    bed time 22:00, wake-up time 06:00, the three sleep levels 0, the
    time zone America/New_York - and the existing-profile flag becomes
    false; the delete makes one call without a payload, its success logs a
    message without data, and the values it leaves do not depend on the
    state before. *)
Theorem delete_resets_to_defaults (st : State) :
  form (snd (deleteProfile_onSuccess st)) = defaultValues
  /\ bedTime (form (snd (deleteProfile_onSuccess st))) = "22:00"
  /\ wakeupTime (form (snd (deleteProfile_onSuccess st))) = "06:00"
  /\ initialSleepLevel (form (snd (deleteProfile_onSuccess st))) = ofZ 0
  /\ midStageSleepLevel (form (snd (deleteProfile_onSuccess st))) = ofZ 0
  /\ finalSleepLevel (form (snd (deleteProfile_onSuccess st))) = ofZ 0
  /\ value (timezone (form (snd (deleteProfile_onSuccess st))))
     = "America/New_York"
  /\ isExistingProfile (snd (deleteProfile_onSuccess st)) = false
  /\ onDelete true = [deleteProfileMutation_mutate]
  /\ fst (deleteProfile_onSuccess st)
     = [console_log "Temperature profile deleted successfully" None]
  /\ existsb isWrite (onDelete true ++ fst (deleteProfile_onSuccess st)) = false
  /\ (forall midnight zoneSuffix,
        form (step midnight zoneSuffix DeleteSucceeded st) = defaultValues
        /\ isExistingProfile (step midnight zoneSuffix DeleteSucceeded st)
           = false
        /\ sleepDurationError (step midnight zoneSuffix DeleteSucceeded st)
           = None).
Proof.
  repeat (split; [reflexivity|]).
  intros midnight zoneSuffix. unfold step.
  rewrite durationEffect_form, durationEffect_isExistingProfile,
    durationEffect_error.
  cbn [handle deleteProfile_onSuccess snd reset withForm setIsExistingProfile
       form isExistingProfile defaultValues bedTime wakeupTime truthy andb].
  rewrite tooShort_defaults. repeat split; reflexivity.
Qed.

(** * Further properties of the component *)

(** ** The wire form of the times *)

(** X1. A time the schema accepts, followed by anything, is cut back to
    itself by [slice(0, 5)]; so formatting a form time for the store and
    loading it again gives the form time back. *)
Theorem time_wire_roundtrip (t rest : string) :
  timeSchema t = [] ->
  slice_0_5 (t ++ rest) = t
  /\ slice_0_5 (formatTimeForAPI t) = t
  /\ String.length (formatTimeForAPI t) = 15%nat.
Proof.
  unfold timeSchema. destruct (Regex.test HHMM_regex t) eqn:E; [|discriminate].
  intros _. destruct (HHMM_regex_inv t E) as (a & b & c & d & -> & _).
  repeat split; try reflexivity.
  unfold slice_0_5. cbn [append substring]. destruct rest; reflexivity.
Qed.

Lemma time_wire_roundtrip_witness :
  timeSchema "23:30" = []
  /\ slice_0_5 ("23:30" ++ ":15.250000") = "23:30"
  /\ slice_0_5 (formatTimeForAPI "23:30") = "23:30"
  /\ String.length (formatTimeForAPI "23:30") = 15%nat.
Proof.
  split; [reflexivity|].
  apply (time_wire_roundtrip "23:30" ":15.250000"). reflexivity.
Defined.

(** ** Whole-number levels *)

Lemma encode_decode_stored (stored : Z) :
  -100 <= stored <= 100 -> encode (decode (ofZ stored)) = ofZ stored.
Proof.
  intros Hs. apply sameValue_eq.
  apply (zrange_forallb
           (fun s => sameValue (encode (decode (ofZ s))) (ofZ s)) (-100) 201);
    [vm_compute; reflexivity | lia].
Qed.

Lemma accepted_nil (l : list issue) : accepted l = true -> l = [].
Proof. destruct l; [reflexivity | discriminate]. Qed.

Lemma levelSchema_decode_stored (stored : Z) :
  -100 <= stored <= 100 -> levelSchema (decode (ofZ stored)) = [].
Proof.
  intros Hs. apply accepted_nil.
  apply (zrange_forallb
           (fun s => accepted (levelSchema (decode (ofZ s)))) (-100) 201);
    [vm_compute; reflexivity | lia].
Qed.

(** X2. For whole-number levels between -100 and 100 the schema accepts
    the level exactly when it is between -10 and 10, and an accepted level
    l is written to the store as 10 l. *)
Theorem integer_levels (l : Z) :
  -100 <= l <= 100 ->
  (levelSchema (ofZ l) = [] <-> -10 <= l <= 10)
  /\ (l < -10 -> levelSchema (ofZ l) = [too_small])
  /\ (10 < l -> levelSchema (ofZ l) = [too_big])
  /\ (-10 <= l <= 10 -> encode (ofZ l) = ofZ (10 * l)).
Proof.
  intros Hl.
  assert (H : (if l <? -10 then
                 match levelSchema (ofZ l) with [too_small] => true | _ => false end
               else if 10 <? l then
                 match levelSchema (ofZ l) with [too_big] => true | _ => false end
               else accepted (levelSchema (ofZ l))
                    && sameValue (encode (ofZ l)) (ofZ (10 * l))) = true).
  { apply (zrange_forallb
             (fun l =>
                if l <? -10 then
                  match levelSchema (ofZ l) with [too_small] => true | _ => false end
                else if 10 <? l then
                  match levelSchema (ofZ l) with [too_big] => true | _ => false end
                else accepted (levelSchema (ofZ l))
                     && sameValue (encode (ofZ l)) (ofZ (10 * l))) (-100) 201);
      [vm_compute; reflexivity | lia]. }
  destruct (Z.ltb_spec l (-10)) as [Hlo | Hlo].
  - destruct (levelSchema (ofZ l)) as [|[] [|]]; try discriminate H.
    repeat split; try (intros; lia); try reflexivity; discriminate.
  - destruct (Z.ltb_spec 10 l) as [Hhi | Hhi].
    + destruct (levelSchema (ofZ l)) as [|[] [|]]; try discriminate H.
      repeat split; try (intros; lia); try reflexivity; discriminate.
    + apply andb_true_iff in H. destruct H as [Hacc Henc].
      apply accepted_nil in Hacc. apply sameValue_eq in Henc.
      rewrite Hacc. repeat split; try (intros; lia); try reflexivity.
      intros _. exact Henc.
Qed.

Lemma integer_levels_witness :
  (-100 <= -10 <= 100 /\ -10 <= -10 <= 10)
  /\ encode (ofZ (-10)) = ofZ (10 * -10)
  /\ levelSchema (ofZ (-10)) = [].
Proof.
  split; [lia|]. split.
  - apply (proj2 (proj2 (proj2 (integer_levels (-10) ltac:(lia))))). lia.
  - apply (proj1 (integer_levels (-10) ltac:(lia))). lia.
Defined.

Lemma getLevel_setLevel (f : levelField) (x : number)
  (v : TemperatureProfileForm) :
  getLevel f (setLevel f x v) = x.
Proof. destruct f; reflexivity. Qed.

(** X3. On a whole-number level l between -100 and 100 the minus button
    gives max(-10, l - 1) and the plus button min(10, l + 1): a level
    between -10 and 10 stays there, -10 and 10 are fixed by their button,
    and neither button touches the times. *)
Theorem level_buttons (f : levelField) (st : State) (l : Z) :
  -100 <= l <= 100 ->
  getLevel f (form st) = ofZ l ->
  getLevel f (form (handle (MinusClicked f) st)) = ofZ (Z.max (-10) (l - 1))
  /\ getLevel f (form (handle (PlusClicked f) st)) = ofZ (Z.min 10 (l + 1))
  /\ bedTime (form (handle (MinusClicked f) st)) = bedTime (form st)
  /\ wakeupTime (form (handle (MinusClicked f) st)) = wakeupTime (form st)
  /\ bedTime (form (handle (PlusClicked f) st)) = bedTime (form st)
  /\ wakeupTime (form (handle (PlusClicked f) st)) = wakeupTime (form st).
Proof.
  intros Hl Hv.
  assert (H : sameValue (Math_max (ofZ (-10)) (sub (ofZ l) (ofZ 1)))
                (ofZ (Z.max (-10) (l - 1)))
              && sameValue (Math_min (ofZ 10) (add (ofZ l) (ofZ 1)))
                   (ofZ (Z.min 10 (l + 1))) = true).
  { apply (zrange_forallb
             (fun l =>
                sameValue (Math_max (ofZ (-10)) (sub (ofZ l) (ofZ 1)))
                  (ofZ (Z.max (-10) (l - 1)))
                && sameValue (Math_min (ofZ 10) (add (ofZ l) (ofZ 1)))
                     (ofZ (Z.min 10 (l + 1)))) (-100) 201);
      [vm_compute; reflexivity | lia]. }
  apply andb_true_iff in H. destruct H as [Hminus Hplus].
  apply sameValue_eq in Hminus. apply sameValue_eq in Hplus.
  cbn [handle fieldChange withForm form].
  rewrite !getLevel_setLevel, Hv, Hminus, Hplus.
  repeat split; destruct f; reflexivity.
Qed.

Lemma level_buttons_witness :
  (-100 <= -10 <= 100)
  /\ getLevel initial
       (form (handle (MinusClicked initial)
                (withForm (setLevel initial (ofZ (-10)) defaultValues)
                   true initialState)))
     = ofZ (Z.max (-10) (-10 - 1)).
Proof.
  split; [lia|].
  apply (level_buttons initial
           (withForm (setLevel initial (ofZ (-10)) defaultValues)
              true initialState) (-10)); [lia | reflexivity].
Defined.

(** ** What the effect shows *)

(** X4. For parsed times the hours and minutes shown split the duration:
    60 hours + minutes is the duration in minutes, with the minutes in
    0..59 and the hours in 0..24. *)
Theorem duration_hours_minutes (midnight bed wake : Z) :
  0 <= bed < 1440 -> 0 <= wake < 1440 ->
  exists d h m,
    durationMinutes midnight (formatHHMM bed) (formatHHMM wake) = Some d
    /\ hours midnight (formatHHMM bed) (formatHHMM wake) = Some h
    /\ minutes midnight (formatHHMM bed) (formatHHMM wake) = Some m
    /\ 60 * h + m = d /\ 0 <= m < 60 /\ 0 <= h <= 24.
Proof.
  intros Hb Hw.
  pose proof (adjustedWake_duration bed wake Hb Hw) as Hd.
  set (d := adjustedWake bed wake - bed) in *.
  exists d, (d / 60), (d mod 60).
  rewrite durationMinutes_parsed, hours_parsed by assumption.
  unfold minutes. rewrite durationMs_parsed by assumption. fold d.
  pose proof (Z.div_mod d 60) as Hdm.
  pose proof (Z.mod_pos_bound d 60) as Hmod.
  assert (Hrem : Z.rem (d * (1000 * 60)) (1000 * 60 * 60)
                 = (d mod 60) * (1000 * 60)).
  { rewrite Z.rem_mod_nonneg by lia.
    replace (1000 * 60 * 60) with (60 * (1000 * 60)) by reflexivity.
    apply Z.mul_mod_distr_r; lia. }
  rewrite Hrem.
  assert (Hround : (2 * (d mod 60 * (1000 * 60)) + 1000 * 60) / (2 * (1000 * 60))
                   = d mod 60).
  { symmetry. apply (Z.div_unique _ _ _ (1000 * 60)); lia. }
  rewrite Hround.
  repeat split; try reflexivity; lia.
Qed.

Lemma duration_hours_minutes_witness :
  (0 <= 1355 < 1440 /\ 0 <= 400 < 1440)
  /\ exists d h m,
      durationMinutes utcMidnight (formatHHMM 1355) (formatHHMM 400) = Some d
      /\ hours utcMidnight (formatHHMM 1355) (formatHHMM 400) = Some h
      /\ minutes utcMidnight (formatHHMM 1355) (formatHHMM 400) = Some m
      /\ 60 * h + m = d /\ 0 <= m < 60 /\ 0 <= h <= 24.
Proof.
  split; [lia|]. apply (duration_hours_minutes utcMidnight 1355 400); lia.
Defined.

(** X5. In a window of 240 minutes or more the final-stage time shown is
    the wake-up clock time minus 120 minutes modulo a day, whether or not
    the wake-up was moved to the next day: it does not depend on the bed
    time; both stage times shown are minutes of the day. *)
Theorem final_stage_from_wake
  (midnight : Z) (zoneSuffix : string) (st : State) (bed wake : Z) :
  0 <= bed < 1440 -> 0 <= wake < 1440 ->
  bedTime (form st) = formatHHMM bed ->
  wakeupTime (form st) = formatHHMM wake ->
  240 <= adjustedWake bed wake - bed ->
  exists mid fin,
    midStageTime (sleepInfo (durationEffect midnight zoneSuffix st))
    = formatHHMM mid
    /\ finalStageTime (sleepInfo (durationEffect midnight zoneSuffix st))
       = formatHHMM fin
    /\ 0 <= mid < 1440 /\ 0 <= fin < 1440
    /\ fin = (wake - 120) mod 1440
    /\ (fin + 120) mod 1440 = wake
    /\ (mid - 60) mod 1440 = bed.
Proof.
  intros Hb Hw Eb Ew Hd.
  exists ((bed + 60) mod 1440), ((adjustedWake bed wake - 120) mod 1440).
  rewrite (durationEffect_parsed midnight zoneSuffix bed wake Hb Hw st Eb Ew).
  replace (adjustedWake bed wake - bed <? 240) with false
    by (symmetry; apply Z.ltb_ge; lia).
  cbn [sleepInfo setSleepInfo midStageTime finalStageTime].
  assert (Hfin : (adjustedWake bed wake - 120) mod 1440 = (wake - 120) mod 1440).
  { unfold adjustedWake. destruct (wake <=? bed); [|reflexivity].
    replace (wake + 1440 - 120) with (wake - 120 + 1 * 1440) by lia.
    apply Z_mod_plus_full. }
  pose proof (Z.mod_pos_bound (bed + 60) 1440).
  pose proof (Z.mod_pos_bound (wake - 120) 1440).
  rewrite Hfin.
  repeat split; try reflexivity; try lia.
  - rewrite Zplus_mod_idemp_l.
    replace (wake - 120 + 120) with wake by lia. apply Z.mod_small; lia.
  - rewrite Zminus_mod_idemp_l.
    replace (bed + 60 - 60) with bed by lia. apply Z.mod_small; lia.
Qed.

Lemma final_stage_from_wake_witness :
  (0 <= 1410 < 1440 /\ 0 <= 210 < 1440 /\ 240 <= adjustedWake 1410 210 - 1410)
  /\ exists mid fin,
      midStageTime
        (sleepInfo (durationEffect utcMidnight utcSuffix
                      (withTimes "23:30" "03:30" initialState)))
      = formatHHMM mid
      /\ finalStageTime
           (sleepInfo (durationEffect utcMidnight utcSuffix
                         (withTimes "23:30" "03:30" initialState)))
         = formatHHMM fin
      /\ 0 <= mid < 1440 /\ 0 <= fin < 1440
      /\ fin = (210 - 120) mod 1440
      /\ (fin + 120) mod 1440 = 210
      /\ (mid - 60) mod 1440 = 1410.
Proof.
  split; [repeat split; try lia; discriminate|].
  apply (final_stage_from_wake utcMidnight utcSuffix
           (withTimes "23:30" "03:30" initialState) 1410 210);
    [lia | lia | reflexivity | reflexivity | discriminate].
Defined.

(** X6. A bed time that the schema accepts but that names no clock time
    (hour 25..99 or minute 60..99) makes the bed date invalid; with any
    non-empty wake-up time the effect then clears the error instead of
    setting it, and shows "NaN hours NaN minutes" and "Inval". *)
Theorem invalid_bed_time_clears_error
  (midnight : Z) (zoneSuffix : string) (st : State) (h m : Z) :
  0 <= h <= 99 -> 0 <= m <= 99 -> 25 <= h \/ 60 <= m ->
  bedTime (form st) = pad2 h ++ ":" ++ pad2 m ->
  truthy (wakeupTime (form st)) = true ->
  timeSchema (bedTime (form st)) = []
  /\ bedDate midnight (bedTime (form st)) = None
  /\ sleepDurationError (durationEffect midnight zoneSuffix st) = None
  /\ duration (sleepInfo (durationEffect midnight zoneSuffix st))
     = "NaN hours NaN minutes"
  /\ midStageTime (sleepInfo (durationEffect midnight zoneSuffix st))
     = "Inval".
Proof.
  intros Hh Hm Hout Eb Htw.
  destruct (clock_parts h m) as (Htest & Hhour & Hmin); [lia | lia |].
  assert (Hbed : bedDate midnight (bedTime (form st)) = None).
  { unfold bedDate, newDate_2000_01_01T.
    rewrite Eb, parseTime_clock by lia. unfold clockMs.
    replace ((h <=? 23) && (m <=? 59) && (0 <=? 59)) with false
      by (symmetry; rewrite andb_true_r; apply andb_false_iff;
          destruct Hout; [left | right]; apply Z.leb_gt; lia).
    replace ((h =? 24) && (m =? 0) && (0 =? 0) && (0 =? 0)) with false
      by (symmetry; rewrite !andb_true_r; apply andb_false_iff;
          destruct Hout; [left | right]; apply Z.eqb_neq; lia).
    reflexivity. }
  assert (Hnext : wakeIsNextDay midnight (bedTime (form st))
                    (wakeupTime (form st)) = false).
  { unfold wakeIsNextDay, Date_leb. rewrite Hbed. unfold getTime.
    destruct (newDate_2000_01_01T midnight (wakeupTime (form st))); reflexivity. }
  assert (Hdur : durationMs midnight (bedTime (form st))
                   (wakeupTime (form st)) = None).
  { unfold durationMs. rewrite Hbed. unfold getTime.
    destruct (wakeDate midnight (bedTime (form st)) (wakeupTime (form st)));
      reflexivity. }
  split; [unfold timeSchema; rewrite Eb, Htest; reflexivity|].
  split; [exact Hbed|].
  unfold durationEffect, tooShort, hours, minutes, midStageDate.
  rewrite Hdur, Hbed, Htw.
  replace (truthy (bedTime (form st))) with true by (rewrite Eb; reflexivity).
  repeat split; reflexivity.
Qed.

Lemma invalid_bed_time_clears_error_witness :
  (0 <= 25 <= 99 /\ 0 <= 0 <= 99 /\ 25 <= 25)
  /\ timeSchema (bedTime (form (withTimes "25:00" "01:00" initialState))) = []
  /\ sleepDurationError
       (durationEffect utcMidnight utcSuffix
          (withTimes "25:00" "01:00" initialState)) = None.
Proof.
  split; [lia|].
  destruct (invalid_bed_time_clears_error utcMidnight utcSuffix
              (withTimes "25:00" "01:00" initialState) 25 0)
    as (H1 & _ & H2 & _);
    [lia | lia | left; lia | reflexivity | reflexivity |].
  split; [exact H1 | exact H2].
Defined.

(** ** The component's states *)

Lemma handle_sleepInfo (ev : event) (st : State) :
  sleepInfo (handle ev st) = sleepInfo st.
Proof. destruct ev as [[| |]| | | | | | | | | |]; reflexivity. Qed.

Lemma handle_keepsTimes (ev : event) (st : State) :
  keepsTimes ev = true ->
  bedTime (form (handle ev st)) = bedTime (form st)
  /\ wakeupTime (form (handle ev st)) = wakeupTime (form st).
Proof.
  destruct ev as [[| |]| | | |f|f| | | | |]; intros H; try discriminate H;
    split; try reflexivity; destruct f; reflexivity.
Qed.

Lemma durationEffect_sleepInfo (midnight : Z) (zoneSuffix : string) (st : State) :
  sleepInfo (durationEffect midnight zoneSuffix st)
  = if truthy (bedTime (form st)) && truthy (wakeupTime (form st)) then
      sleepInfo (durationEffect midnight zoneSuffix
                   (withTimes (bedTime (form st)) (wakeupTime (form st))
                      initialState))
    else sleepInfo st.
Proof.
  unfold durationEffect.
  cbn [withTimes withForm form setWakeupTime setBedTime bedTime wakeupTime].
  destruct (truthy (bedTime (form st)) && truthy (wakeupTime (form st)));
    [|reflexivity].
  destruct (tooShort midnight (bedTime (form st)) (wakeupTime (form st)));
    reflexivity.
Qed.

Lemma durationEffect_idem (midnight : Z) (zoneSuffix : string) (st : State) :
  durationEffect midnight zoneSuffix (durationEffect midnight zoneSuffix st)
  = durationEffect midnight zoneSuffix st.
Proof.
  unfold durationEffect.
  destruct (truthy (bedTime (form st)) && truthy (wakeupTime (form st))) eqn:Eg.
  - destruct (tooShort midnight (bedTime (form st)) (wakeupTime (form st)))
      eqn:Et;
      cbn [form setSleepInfo setSleepDurationError]; rewrite Eg, Et; reflexivity.
  - rewrite Eg. reflexivity.
Qed.

(** X7. The effect is idempotent, and every state the component reaches
    is a fixed point of it: running it again while neither time has
    changed changes nothing. *)
Theorem reachable_fixed_point
  (midnight : Z) (zoneSuffix : string) (st : State) :
  reachable midnight zoneSuffix st ->
  durationEffect midnight zoneSuffix st = st.
Proof.
  intros H. destruct H; [|unfold step]; apply durationEffect_idem.
Qed.

Lemma reachable_fixed_point_witness :
  durationEffect utcMidnight utcSuffix
    (step utcMidnight utcSuffix (BedTimeInput "03:00")
       (durationEffect utcMidnight utcSuffix initialState))
  = step utcMidnight utcSuffix (BedTimeInput "03:00")
      (durationEffect utcMidnight utcSuffix initialState).
Proof.
  apply (reachable_fixed_point utcMidnight utcSuffix).
  apply reachable_step, reachable_mount.
Defined.

Lemma slice_toTimeString_nonempty
  (midnight : Z) (zoneSuffix : string) (d : Date) :
  slice_0_5 (toTimeString midnight zoneSuffix d) <> "".
Proof.
  destruct d; unfold toTimeString, slice_0_5, pad2; cbn [append substring];
    discriminate.
Qed.

Lemma duration_text_nonempty (a b : string) :
  a ++ " hours " ++ b ++ " minutes" <> "".
Proof. destruct a; discriminate. Qed.

(** X8. In every state the component reaches, either the error is the
    four-hour message and the duration and both stage times are empty, or
    there is no error and none of the three is empty. *)
Theorem error_xor_sleepInfo
  (midnight : Z) (zoneSuffix : string) (st : State) :
  reachable midnight zoneSuffix st ->
  (sleepDurationError st = Some "Sleep duration must be at least 4 hours."
   /\ sleepInfo st = noSleepInfo)
  \/ (sleepDurationError st = None
      /\ duration (sleepInfo st) <> ""
      /\ midStageTime (sleepInfo st) <> ""
      /\ finalStageTime (sleepInfo st) <> "").
Proof.
  assert (Heffect : forall s,
    truthy (bedTime (form s)) && truthy (wakeupTime (form s)) = true ->
    (sleepDurationError (durationEffect midnight zoneSuffix s)
     = Some "Sleep duration must be at least 4 hours."
     /\ sleepInfo (durationEffect midnight zoneSuffix s) = noSleepInfo)
    \/ (sleepDurationError (durationEffect midnight zoneSuffix s) = None
        /\ duration (sleepInfo (durationEffect midnight zoneSuffix s)) <> ""
        /\ midStageTime (sleepInfo (durationEffect midnight zoneSuffix s)) <> ""
        /\ finalStageTime (sleepInfo (durationEffect midnight zoneSuffix s))
           <> "")).
  { intros s Hg. unfold durationEffect. rewrite Hg.
    destruct (tooShort midnight (bedTime (form s)) (wakeupTime (form s))).
    - left. split; reflexivity.
    - right. cbn [sleepDurationError sleepInfo setSleepInfo
                  setSleepDurationError duration midStageTime finalStageTime].
      repeat split;
        [ apply duration_text_nonempty
        | apply slice_toTimeString_nonempty
        | apply slice_toTimeString_nonempty ]. }
  induction 1 as [|ev st Hst IH].
  - apply Heffect. reflexivity.
  - unfold step.
    destruct (truthy (bedTime (form (handle ev st)))
              && truthy (wakeupTime (form (handle ev st)))) eqn:Eg.
    + apply Heffect, Eg.
    + unfold durationEffect. rewrite Eg.
      rewrite handle_error, handle_sleepInfo. exact IH.
Qed.

Lemma error_xor_sleepInfo_witness :
  (sleepDurationError
     (step utcMidnight utcSuffix (WakeupTimeInput "23:00")
        (durationEffect utcMidnight utcSuffix initialState))
   = Some "Sleep duration must be at least 4 hours."
   /\ sleepInfo
        (step utcMidnight utcSuffix (WakeupTimeInput "23:00")
           (durationEffect utcMidnight utcSuffix initialState))
      = noSleepInfo)
  \/ (sleepDurationError
        (step utcMidnight utcSuffix (WakeupTimeInput "23:00")
           (durationEffect utcMidnight utcSuffix initialState)) = None
      /\ duration
           (sleepInfo
              (step utcMidnight utcSuffix (WakeupTimeInput "23:00")
                 (durationEffect utcMidnight utcSuffix initialState))) <> ""
      /\ midStageTime
           (sleepInfo
              (step utcMidnight utcSuffix (WakeupTimeInput "23:00")
                 (durationEffect utcMidnight utcSuffix initialState))) <> ""
      /\ finalStageTime
           (sleepInfo
              (step utcMidnight utcSuffix (WakeupTimeInput "23:00")
                 (durationEffect utcMidnight utcSuffix initialState))) <> "").
Proof.
  apply (error_xor_sleepInfo utcMidnight utcSuffix).
  apply reachable_step, reachable_mount.
Defined.

(** X9. In a state the component reaches, an event that leaves both time
    fields alone - a level button, a time zone choice, the progress of an
    update, a failed delete, a failed load - changes neither the error nor
    the derived duration and stage times. *)
Theorem verdict_kept_by_other_events
  (midnight : Z) (zoneSuffix : string) (ev : event) (st : State) :
  reachable midnight zoneSuffix st ->
  keepsTimes ev = true ->
  sleepDurationError (step midnight zoneSuffix ev st) = sleepDurationError st
  /\ sleepInfo (step midnight zoneSuffix ev st) = sleepInfo st.
Proof.
  intros Hreach Hkeep.
  destruct (handle_keepsTimes ev st Hkeep) as [Eb Ew].
  pose proof (reachable_fixed_point midnight zoneSuffix st Hreach) as Hfix.
  unfold step. split.
  - rewrite durationEffect_error, Eb, Ew, handle_error.
    rewrite <- (durationEffect_error midnight zoneSuffix st), Hfix.
    reflexivity.
  - rewrite durationEffect_sleepInfo, Eb, Ew, handle_sleepInfo.
    rewrite <- (durationEffect_sleepInfo midnight zoneSuffix st), Hfix.
    reflexivity.
Qed.

Lemma verdict_kept_by_other_events_witness :
  keepsTimes (PlusClicked final) = true
  /\ sleepInfo (step utcMidnight utcSuffix (PlusClicked final)
                  (durationEffect utcMidnight utcSuffix initialState))
     = sleepInfo (durationEffect utcMidnight utcSuffix initialState).
Proof.
  split; [reflexivity|].
  apply (verdict_kept_by_other_events utcMidnight utcSuffix (PlusClicked final)
           (durationEffect utcMidnight utcSuffix initialState));
    [apply reachable_mount | reflexivity].
Defined.

(** X10. Emptying a time field keeps the error and the derived values of
    before - the effect does not run on an empty time - and the schema
    then stops the submit: no call is made. *)
Theorem empty_time_field (midnight : Z) (zoneSuffix : string) (st : State) :
  (sleepDurationError (step midnight zoneSuffix (BedTimeInput "") st)
   = sleepDurationError st
   /\ sleepInfo (step midnight zoneSuffix (BedTimeInput "") st) = sleepInfo st
   /\ handleSubmit (step midnight zoneSuffix (BedTimeInput "") st) = [])
  /\ (sleepDurationError (step midnight zoneSuffix (WakeupTimeInput "") st)
      = sleepDurationError st
      /\ sleepInfo (step midnight zoneSuffix (WakeupTimeInput "") st)
         = sleepInfo st
      /\ handleSubmit (step midnight zoneSuffix (WakeupTimeInput "") st) = []).
Proof.
  unfold step, durationEffect.
  cbn [handle fieldChange withForm form setBedTime setWakeupTime bedTime
       wakeupTime truthy andb].
  rewrite andb_false_r.
  repeat split; try reflexivity.
  unfold handleSubmit, temperatureProfileSchema.
  cbn [form fieldChange withForm setWakeupTime wakeupTime bedTime].
  destruct (timeSchema (bedTime (form st))); reflexivity.
Qed.

(** ** Writing to the store *)

Lemma timeSchema_formatHHMM (t : Z) :
  0 <= t < 1440 -> timeSchema (formatHHMM t) = [].
Proof.
  intros Ht. destruct (minute_of_day_parts t Ht) as [Hh Hm].
  unfold timeSchema, formatHHMM.
  destruct (clock_parts (t / 60) (t mod 60)) as [-> _]; [lia | lia | reflexivity].
Qed.

Lemma slice_formatHHMM (t : Z) :
  slice_0_5 (formatTimeForAPI (formatHHMM t)) = formatHHMM t.
Proof. reflexivity. Qed.

(** X11. In a state the component reaches, with parsed times of a window
    of 240 minutes or more and three levels the schema accepts, a submit
    logs the payload and starts exactly one write; the payload is the two
    times with ":00.000000" appended, each of the three levels multiplied
    by 10 and rounded, and the value of the time zone. *)
Theorem valid_submit_writes_once
  (midnight : Z) (zoneSuffix : string) (st : State) (bed wake : Z) :
  reachable midnight zoneSuffix st ->
  0 <= bed < 1440 -> 0 <= wake < 1440 ->
  bedTime (form st) = formatHHMM bed ->
  wakeupTime (form st) = formatHHMM wake ->
  240 <= adjustedWake bed wake - bed ->
  levelSchema (initialSleepLevel (form st)) = [] ->
  levelSchema (midStageSleepLevel (form st)) = [] ->
  levelSchema (finalSleepLevel (form st)) = [] ->
  let payload := {|
    Api.bedTime := formatHHMM bed ++ ":00.000000";
    Api.wakeupTime := formatHHMM wake ++ ":00.000000";
    Api.initialSleepLevel :=
      Math_round (mul (initialSleepLevel (form st)) (ofZ 10));
    Api.midStageSleepLevel :=
      Math_round (mul (midStageSleepLevel (form st)) (ofZ 10));
    Api.finalSleepLevel :=
      Math_round (mul (finalSleepLevel (form st)) (ofZ 10));
    Api.timezoneTZ := value (timezone (form st));
  |} in
  handleSubmit st
  = [ console_log "Data being sent to server:" (Some payload);
      updateProfileMutation_mutate payload ].
Proof.
  intros Hreach Hb Hw Eb Ew Hd H1 H2 H3 payload.
  destruct (reachable_error midnight zoneSuffix st Hreach) as [_ Hsync].
  assert (Herr : sleepDurationError st = None).
  { rewrite Hsync by (rewrite Eb, Ew; reflexivity).
    rewrite Eb, Ew, tooShort_parsed by assumption.
    replace (adjustedWake bed wake - bed <? 240) with false
      by (symmetry; apply Z.ltb_ge; lia).
    reflexivity. }
  assert (Hpayload : mutationData (form st) = payload).
  { unfold mutationData, payload, formatTimeForAPI, encode.
    rewrite Eb, Ew. reflexivity. }
  unfold handleSubmit, temperatureProfileSchema.
  rewrite Eb, Ew, !timeSchema_formatHHMM, H1, H2, H3 by assumption.
  cbn [at_field map app]. unfold onSubmit.
  rewrite Herr, Hpayload. reflexivity.
Qed.

Lemma valid_submit_writes_once_witness :
  (0 <= 1350 < 1440 /\ 0 <= 405 < 1440 /\ 240 <= adjustedWake 1350 405 - 1350)
  /\ handleSubmit
       (step utcMidnight utcSuffix (PlusClicked initial)
          (step utcMidnight utcSuffix
             (QuerySettled
                (Api.isSuccess
                   (storedProfile 1350 405 (-20) 55 100 "Europe/Paris")))
             (durationEffect utcMidnight utcSuffix initialState)))
     = [ console_log "Data being sent to server:"
           (Some {| Api.bedTime := "22:30:00.000000";
                    Api.wakeupTime := "06:45:00.000000";
                    Api.initialSleepLevel := ofZ (-10);
                    Api.midStageSleepLevel := ofZ 55;
                    Api.finalSleepLevel := ofZ 100;
                    Api.timezoneTZ := "Europe/Paris" |});
         updateProfileMutation_mutate
           {| Api.bedTime := "22:30:00.000000";
              Api.wakeupTime := "06:45:00.000000";
              Api.initialSleepLevel := ofZ (-10);
              Api.midStageSleepLevel := ofZ 55;
              Api.finalSleepLevel := ofZ 100;
              Api.timezoneTZ := "Europe/Paris" |} ].
Proof.
  split; [repeat split; try lia; discriminate|].
  apply (valid_submit_writes_once utcMidnight utcSuffix
           (step utcMidnight utcSuffix (PlusClicked initial)
              (step utcMidnight utcSuffix
                 (QuerySettled
                    (Api.isSuccess
                       (storedProfile 1350 405 (-20) 55 100 "Europe/Paris")))
                 (durationEffect utcMidnight utcSuffix initialState)))
           1350 405);
    [ apply reachable_step, reachable_step, reachable_mount
    | lia | lia | reflexivity | reflexivity | discriminate
    | reflexivity | reflexivity | reflexivity ].
Defined.

(** X12. Loading a stored profile - times in the [HH:MM:00.000000] form
    spanning 240 minutes or more, whole-number levels between -100 and
    100 - and submitting the form untouched writes back the very profile
    that was loaded; the profile is then marked as existing and the
    loading screen is gone. *)
Theorem load_then_submit_roundtrip
  (midnight : Z) (zoneSuffix : string) (st : State)
  (bed wake l1 l2 l3 : Z) (zone : string) :
  0 <= bed < 1440 -> 0 <= wake < 1440 ->
  240 <= adjustedWake bed wake - bed ->
  -100 <= l1 <= 100 -> -100 <= l2 <= 100 -> -100 <= l3 <= 100 ->
  handleSubmit
    (step midnight zoneSuffix
       (QuerySettled (Api.isSuccess (storedProfile bed wake l1 l2 l3 zone))) st)
  = [ console_log "Data being sent to server:"
        (Some (storedProfile bed wake l1 l2 l3 zone));
      updateProfileMutation_mutate (storedProfile bed wake l1 l2 l3 zone) ]
  /\ isExistingProfile
       (step midnight zoneSuffix
          (QuerySettled (Api.isSuccess (storedProfile bed wake l1 l2 l3 zone)))
          st) = true
  /\ isLoading
       (step midnight zoneSuffix
          (QuerySettled (Api.isSuccess (storedProfile bed wake l1 l2 l3 zone)))
          st) = false.
Proof.
  intros Hb Hw Hd H1 H2 H3.
  set (p := storedProfile bed wake l1 l2 l3 zone).
  set (loaded := handle (QuerySettled (Api.isSuccess p)) st).
  assert (Eb : bedTime (form loaded) = formatHHMM bed) by reflexivity.
  assert (Ew : wakeupTime (form loaded) = formatHHMM wake) by reflexivity.
  assert (Herr : sleepDurationError (durationEffect midnight zoneSuffix loaded)
                 = None).
  { rewrite durationEffect_error, Eb, Ew, tooShort_parsed by assumption.
    replace (adjustedWake bed wake - bed <? 240) with false
      by (symmetry; apply Z.ltb_ge; lia).
    reflexivity. }
  unfold step. fold loaded. split; [|split].
  - unfold handleSubmit, temperatureProfileSchema, onSubmit.
    rewrite Herr, durationEffect_form, Eb, Ew.
    rewrite !timeSchema_formatHHMM by assumption.
    unfold loaded, p, storedProfile.
    cbn [handle profileEffect form withForm setIsLoading setIsExistingProfile
         initialSleepLevel midStageSleepLevel finalSleepLevel
         Api.initialSleepLevel Api.midStageSleepLevel Api.finalSleepLevel].
    rewrite !levelSchema_decode_stored by assumption.
    cbn [at_field map app truthyError].
    unfold mutationData.
    cbn [bedTime wakeupTime initialSleepLevel midStageSleepLevel
         finalSleepLevel timezone value Api.bedTime Api.wakeupTime
         Api.timezoneTZ].
    rewrite !encode_decode_stored by assumption.
    rewrite !slice_formatHHMM. reflexivity.
  - rewrite durationEffect_isExistingProfile. reflexivity.
  - unfold durationEffect.
    destruct (truthy (bedTime (form loaded)) && truthy (wakeupTime (form loaded)));
      [|reflexivity].
    destruct (tooShort midnight (bedTime (form loaded)) (wakeupTime (form loaded)));
      reflexivity.
Qed.

Lemma load_then_submit_roundtrip_witness :
  (0 <= 1350 < 1440 /\ 0 <= 405 < 1440 /\ 240 <= adjustedWake 1350 405 - 1350)
  /\ handleSubmit
       (step utcMidnight utcSuffix
          (QuerySettled
             (Api.isSuccess (storedProfile 1350 405 (-20) 55 100 "Europe/Paris")))
          initialState)
     = [ console_log "Data being sent to server:"
           (Some (storedProfile 1350 405 (-20) 55 100 "Europe/Paris"));
         updateProfileMutation_mutate
           (storedProfile 1350 405 (-20) 55 100 "Europe/Paris") ].
Proof.
  split; [repeat split; try lia; discriminate|].
  apply (load_then_submit_roundtrip utcMidnight utcSuffix initialState
           1350 405 (-20) 55 100 "Europe/Paris"); try lia; discriminate.
Defined.

(** X13. The loading screen is left when the profile query settles, with
    a profile or with an error, and no event brings it back. *)
Theorem loading_ends_once
  (midnight : Z) (zoneSuffix : string) (ev : event) (st : State) :
  (isLoading st = false -> isLoading (step midnight zoneSuffix ev st) = false)
  /\ (forall q, q <> Api.pending ->
                isLoading (step midnight zoneSuffix (QuerySettled q) st) = false).
Proof.
  assert (Heffect : forall s,
            isLoading (durationEffect midnight zoneSuffix s) = isLoading s).
  { intros s. unfold durationEffect.
    destruct (truthy (bedTime (form s)) && truthy (wakeupTime (form s)));
      [|reflexivity].
    destruct (tooShort midnight (bedTime (form s)) (wakeupTime (form s)));
      reflexivity. }
  unfold step. split.
  - intros Hl. rewrite Heffect.
    destruct ev as [[| |]| | | | | | | | | |]; cbn; try exact Hl; reflexivity.
  - intros q Hq. rewrite Heffect.
    destruct q; [contradiction | reflexivity | reflexivity].
Qed.

Lemma loading_ends_once_witness :
  isLoading (step utcMidnight utcSuffix (QuerySettled Api.isError) initialState)
  = false.
Proof.
  apply (proj2 (loading_ends_once utcMidnight utcSuffix UpdateFailed
                  initialState) Api.isError).
  discriminate.
Defined.
